(** * Battery cell manager (src/app.py): the cell ledger and its handlers

    A shallow embedding of the data-carrying part of the Streamlit script:
    the sidebar's "Generate Cells" handler (lines 83-118), the "Current
    Input" tab with its update loop and commit button (lines 157-182) and the
    "Quick Stats" aggregates (lines 186-196), followed by the properties of
    the cell ledger that the specification states about them.

    Python floats are IEEE 754 binary64 values, modelled by Rocq's primitive
    floats.  The inner dictionaries of [cells_data] are mutable objects that
    several outer dictionaries may share, so they live in an explicit heap. *)

From Stdlib Require Import ZArith Lia List Bool Ascii String.
From Stdlib Require Import Floats.
From Stdlib Require Import DecimalString DecimalNat.
From stdpp Require Import base list strings.

Set Warnings "-inexact-float".

Local Open Scope Z_scope.

(** ** Python floats *)

Module PyFloat.

(** [round_half_even p q] is the integer nearest to the rational [p / q]
    (for [0 < q]), ties going to the even neighbour. *)
Definition round_half_even (p q : Z) : Z :=
  let (d, r) := Z.div_eucl p q in
  match (2 * r ?= q) with
  | Lt => d
  | Gt => d + 1
  | Eq => if Z.even d then d else d + 1
  end.

(** The exact value of the finite float with mantissa [m] and exponent [e],
    times [10 ^ nd], rounded to an integer the way [_Py_dg_dtoa] (mode 3)
    rounds the decimal expansion: correctly, half to even. *)
Definition scaled_digits (m : positive) (e : Z) (nd : Z) : Z :=
  if 0 <=? e then Z.pos m * 2 ^ e * 10 ^ nd
  else round_half_even (Z.pos m * 10 ^ nd) (2 ^ (- e)).

(** The float nearest to [n / 10 ^ nd] carrying sign [s]: what
    [_Py_dg_strtod] returns for the digit string of [n] with exponent
    [-nd]. *)
Definition of_decimal (s : bool) (n : Z) (nd : Z) : float :=
  match n with
  | Z.pos p =>
      SF2Prim (SF64div (S754_finite s p 0)
                       (S754_finite false (Z.to_pos (10 ^ nd)) 0))
  | _ => SF2Prim (S754_zero s)
  end.

(** [float.__round__(x, ndigits)] of CPython for [0 <= ndigits]: infinities,
    NaN and zeros round to themselves, more than 323 digits leave [x] as it
    is, and otherwise [x] goes through its correctly rounded decimal string
    and back ([double_round]). *)
Definition round (x : float) (ndigits : nat) : float :=
  match Prim2SF x with
  | S754_finite s m e =>
      if (323 <? ndigits)%nat then x
      else of_decimal s (scaled_digits m e (Z.of_nat ndigits)) (Z.of_nat ndigits)
  | _ => x
  end.

(** [float(n)] for a Python integer: the nearest float. *)
Definition of_int (n : Z) : float :=
  SF2Prim (binary_normalize prec emax n 0 false).

End PyFloat.

(** ** Python strings *)

Module PyStr.

Local Open Scope char_scope.

Definition lower_char (c : ascii) : ascii :=
  let n := nat_of_ascii c in
  if ((65 <=? n) && (n <=? 90))%nat then ascii_of_nat (n + 32) else c.

Definition upper_char (c : ascii) : ascii :=
  let n := nat_of_ascii c in
  if ((97 <=? n) && (n <=? 122))%nat then ascii_of_nat (n - 32) else c.

Fixpoint map_chars (f : ascii -> ascii) (s : string) : string :=
  match s with
  | EmptyString => EmptyString
  | String c s' => String (f c) (map_chars f s')
  end.

(** [s.lower()] and [s.upper()], on ASCII text. *)
Definition lower : string -> string := map_chars lower_char.
Definition upper : string -> string := map_chars upper_char.

(** [str(n)] for a non-negative integer. *)
Definition of_nat (n : nat) : string := NilEmpty.string_of_uint (Nat.to_uint n).

End PyStr.

(** ** Cell records, the heap and dictionaries *)

(** The dictionary literal of lines 107-115, with its seven fixed keys. *)
Record cell : Type := Cell {
  voltage : float;
  current : float;
  temp : float;
  capacity : float;
  min_voltage : float;
  max_voltage : float;
  type : string
}.

(** Inner dictionaries are objects: the heap holds them, by address. *)
Abbreviation addr := nat (only parsing).
Abbreviation heap := (list cell) (only parsing).

(** The outer dictionary [cells_data]: keys in insertion order, each bound to
    the address of its record. *)
Abbreviation pydict := (list (string * addr)) (only parsing).

Fixpoint dict_get (d : pydict) (k : string) : option addr :=
  match d with
  | [] => None
  | (k', a) :: d' => if String.eqb k' k then Some a else dict_get d' k
  end.

(** [d[k] = a]: an existing key keeps its place, a new key goes last. *)
Fixpoint dict_set (d : pydict) (k : string) (a : addr) : pydict :=
  match d with
  | [] => [(k, a)]
  | (k', a') :: d' =>
      if String.eqb k' k then (k', a) :: d' else (k', a') :: dict_set d' k a
  end.

Definition dict_keys (d : pydict) : list string := map fst d.

(** [d.copy()] is shallow: a new outer dictionary over the same records. *)
Definition dict_copy (d : pydict) : pydict := d.

(** ** Exceptions and the heap monad *)

(** The two exceptions the script can raise on its data, and [DanglingRef]
    for an address without a record, which no well-formed store contains. *)
Inductive exn : Type :=
  | KeyError (k : string)
  | ZeroDivisionError
  | DanglingRef (a : addr).

Definition M (A : Type) : Type := heap -> (exn + A) * heap.

Definition ret {A} (x : A) : M A := fun h => (inr x, h).

Definition raise {A} (e : exn) : M A := fun h => (inl e, h).

Definition bind {A B} (m : M A) (f : A -> M B) : M B :=
  fun h => match m h with
           | (inr x, h') => f x h'
           | (inl e, h') => (inl e, h')
           end.

Declare Scope py_scope.
Delimit Scope py_scope with py.
Notation "x <- m ;; k" := (bind m (fun x => k))
  (at level 100, m at next level, right associativity) : py_scope.
Notation "m ;;; k" := (bind m (fun _ => k))
  (at level 100, right associativity) : py_scope.
Local Open Scope py_scope.

(** [d[k]] on the outer dictionary. *)
Definition subscript (d : pydict) (k : string) : M addr :=
  match dict_get d k with
  | Some a => ret a
  | None => raise (KeyError k)
  end.

(** Reading the record at an address. *)
Definition deref (a : addr) : M cell :=
  fun h => match h !! a with
           | Some r => (inr r, h)
           | None => (inl (DanglingRef a), h)
           end.

(** A dictionary display allocates a new object. *)
Definition alloc (r : cell) : M addr :=
  fun h => (inr (length h), h ++ [r]).

(** [obj["current"] = x] and [obj["capacity"] = x] on the record at [a]. *)
Definition setitem_current (a : addr) (x : float) : M unit :=
  r <- deref a ;;
  fun h => (inr tt, <[a := Cell (voltage r) x (temp r) (capacity r)
                              (min_voltage r) (max_voltage r) (type r)]> h).

Definition setitem_capacity (a : addr) (x : float) : M unit :=
  r <- deref a ;;
  fun h => (inr tt, <[a := Cell (voltage r) (current r) (temp r) x
                              (min_voltage r) (max_voltage r) (type r)]> h).

(** [d.values()], read through the heap. *)
Fixpoint dict_values (d : pydict) : M (list cell) :=
  match d with
  | [] => ret []
  | (_, a) :: d' => r <- deref a ;; rs <- dict_values d' ;; ret (r :: rs)
  end.

(** What a reader of the dictionary sees: each key with its record. *)
Definition ledger (h : heap) (d : pydict) : list (string * cell) :=
  omap (fun ka => pair (fst ka) <$> h !! snd ka) d.

Definition lookup_cell (h : heap) (d : pydict) (k : string) : option cell :=
  a ← dict_get d k; h !! a.

(** A store is well formed when every key is bound once, to a live record
    that no other key shares. *)
Definition wf_store (h : heap) (d : pydict) : bool :=
  bool_decide (NoDup (map fst d))
  && bool_decide (NoDup (map snd d))
  && forallb (fun ka => bool_decide (snd ka < length h)%nat) d.

(** ** The sidebar: cell configuration (lines 74-118) *)

(** [st.session_state]: the two entries the script keeps (lines 65-68). *)
Record session_state : Type := Session {
  cells_data : pydict;
  cell_types : list string
}.

(** Lines 83-91: one selectbox choice per cell, lower-cased. *)
Definition sidebar_cell_types (choices : list string) : list string :=
  map PyStr.lower choices.

(** Line 99: [f"cell_{idx}_{cell_type}"]. *)
Definition cell_key_of (idx : nat) (cell_type : string) : string :=
  ("cell_" ++ PyStr.of_nat idx ++ "_" ++ cell_type)%string.

Arguments cell_key_of : simpl never.

(** Lines 100-115: the record built for one cell; [u] is the value that
    [random.uniform(25, 40)] returned for it. *)
Definition new_cell (cell_type : string) (u : float) : cell :=
  let v := if String.eqb cell_type "lfp" then 3.2%float else 3.6%float in
  let min_v := if String.eqb cell_type "lfp" then 2.8%float else 3.2%float in
  let max_v := if String.eqb cell_type "lfp" then 3.6%float else 4.0%float in
  let cur := 0.0%float in
  let t := PyFloat.round u 1 in
  let cap := PyFloat.round (v * cur) 2 in
  Cell v cur t cap min_v max_v (PyStr.upper cell_type).

(** Lines 98-115: the loop over [enumerate(cell_types, start=1)], from index
    [idx] on.  [uniform idx] is the draw of the iteration with index [idx]. *)
Fixpoint generate_loop (idx : nat) (cts : list string) (uniform : nat -> float)
    (cells : pydict) : M pydict :=
  match cts with
  | [] => ret cells
  | cell_type :: rest =>
      let cell_key := cell_key_of idx cell_type in
      a <- alloc (new_cell cell_type (uniform idx)) ;;
      generate_loop (S idx) rest uniform (dict_set cells cell_key a)
  end.

(** Lines 94-117: the "Generate Cells" handler. *)
Definition generate_cells (cts : list string) (uniform : nat -> float)
    : M session_state :=
  cells <- generate_loop 1 cts uniform [] ;;
  ret (Session cells cts).

(** ** The "Current Input" tab (lines 157-182) *)

(** Lines 175-177: the update of one cell through [updated_data]. *)
Definition set_current (updated_data : pydict) (cell_key : string)
    (new_current : float) : M unit :=
  a <- subscript updated_data cell_key ;;
  r <- deref a ;;
  let v := voltage r in
  a1 <- subscript updated_data cell_key ;;
  setitem_current a1 new_current ;;;
  a2 <- subscript updated_data cell_key ;;
  setitem_capacity a2 (PyFloat.round (v * new_current) 2).

(** Lines 159-177: the loop over the keys; [number_input k] is the value of
    the widget of cell [k], which Streamlit keeps within [0.0, 10.0]. *)
Fixpoint update_loop (keys : list string) (number_input : string -> float)
    (updated_data : pydict) : M unit :=
  match keys with
  | [] => ret tt
  | cell_key :: rest =>
      set_current updated_data cell_key (number_input cell_key) ;;;
      update_loop rest number_input updated_data
  end.

(** Lines 157-182: copy, loop, and the "Update All Currents" button. *)
Definition current_input_tab (number_input : string -> float) (button : bool)
    (ss : session_state) : M session_state :=
  let updated_data := dict_copy (cells_data ss) in
  update_loop (dict_keys (cells_data ss)) number_input updated_data ;;;
  if button then ret (Session updated_data (cell_types ss)) else ret ss.

(** ** Quick Stats (lines 186-196) *)

(** [sum(...)] over floats: the items are added from left to right,
    starting from 0. *)
Definition py_sum (xs : list float) : float := fold_left PrimFloat.add xs 0%float.

(** [sum(1 for ... if ...)]: a sum of ones. *)
Definition py_sum_int (xs : list Z) : Z := fold_left Z.add xs 0.

Definition total_capacity (d : pydict) : M float :=
  cells <- dict_values d ;; ret (py_sum (map capacity cells)).

(** Line 187: true division, which raises on a zero divisor. *)
Definition avg_temp (d : pydict) : M float :=
  cells <- dict_values d ;;
  let s := py_sum (map temp cells) in
  let n := Z.of_nat (length d) in
  if n =? 0 then raise ZeroDivisionError
  else ret (s / PyFloat.of_int n)%float.

Definition total_current (d : pydict) : M float :=
  cells <- dict_values d ;; ret (py_sum (map current cells)).

Definition lfp_count (d : pydict) : M Z :=
  cells <- dict_values d ;;
  ret (py_sum_int (map (fun _ => 1)
                       (filter (fun c => String.eqb (type c) "LFP" = true) cells))).

(** Line 196: [len(cells_data) - lfp_count]. *)
Definition nmc_count (d : pydict) (lfp : Z) : Z := Z.of_nat (length d) - lfp.

Record quick_stats : Type := QuickStats {
  qs_total_capacity : float;
  qs_avg_temp : float;
  qs_total_current : float;
  qs_lfp_count : Z;
  qs_nmc_count : Z
}.

Definition quick_stats_panel (d : pydict) : M quick_stats :=
  tc <- total_capacity d ;;
  at_ <- avg_temp d ;;
  ti <- total_current d ;;
  lfp <- lfp_count d ;;
  ret (QuickStats tc at_ ti lfp (nmc_count d lfp)).

(** Lines 121-200 and 312: the main area shows the tabs only for a non-empty
    [cells_data]; otherwise the welcome text, and no statistic is computed. *)
Definition main_content (number_input : string -> float) (button : bool)
    (ss : session_state) : M (session_state * option quick_stats) :=
  match cells_data ss with
  | [] => ret (ss, None)
  | _ :: _ =>
      ss' <- current_input_tab number_input button ss ;;
      qs <- quick_stats_panel (cells_data ss') ;;
      ret (ss', Some qs)
  end.

(** ** The ledger that "Generate Cells" is expected to build *)

(** One entry per cell type, numbered from [idx]. *)
Fixpoint new_cells (idx : nat) (cts : list string) (uniform : nat -> float)
    : list (string * cell) :=
  match cts with
  | [] => []
  | cell_type :: rest =>
      (cell_key_of idx cell_type, new_cell cell_type (uniform idx))
        :: new_cells (S idx) rest uniform
  end.

(** ** What a reader sees: the ledger, before and after *)

(** The record that lines 176-177 leave behind. *)
Definition with_current (r : cell) (c : float) : cell :=
  Cell (voltage r) c (temp r) (PyFloat.round (voltage r * c) 2)
       (min_voltage r) (max_voltage r) (type r).

(** What the ledger shows after a current was set: the entry of [k] carries
    the new record, every other entry is as before. *)
Definition ledger_update (k : string) (c : float) (l : list (string * cell))
    : list (string * cell) :=
  map (fun kr => if String.eqb k (fst kr)
                 then (fst kr, with_current (snd kr) c) else kr) l.

(** What the ledger shows after the loop went over [keys]. *)
Definition batch_update (number_input : string -> float) (keys : list string)
    (l : list (string * cell)) : list (string * cell) :=
  fold_left (fun l k => ledger_update k (number_input k) l) keys l.

(** The current and the capacity that a reader sees for each cell. *)
Definition readings (l : list (string * cell)) : list (string * float * float) :=
  map (fun kr => (fst kr, current (snd kr), capacity (snd kr))) l.

(** Two ledger entries that agree on everything but the temperature. *)
Definition same_but_temp (kr1 kr2 : string * cell) : Prop :=
  fst kr1 = fst kr2 /\
  voltage (snd kr1) = voltage (snd kr2) /\
  current (snd kr1) = current (snd kr2) /\
  capacity (snd kr1) = capacity (snd kr2) /\
  min_voltage (snd kr1) = min_voltage (snd kr2) /\
  max_voltage (snd kr1) = max_voltage (snd kr2) /\
  type (snd kr1) = type (snd kr2).

(** ** The aggregates, as functions of the ledger *)

(** The sum of one field over the records of a ledger, in ledger order. *)
Definition sum_of (f : cell -> float) (l : list (string * cell)) : float :=
  fold_left (fun acc kr => (acc + f (snd kr))%float) l 0%float.

(** The number of records of a ledger with exactly the chemistry [c]. *)
Definition count_chemistry (c : string) (l : list (string * cell)) : Z :=
  Z.of_nat (length (filter (fun kr => type (snd kr) = c) l)).

(** The arithmetic mean of one field: its sum over the number of records. *)
Definition mean_of (f : cell -> float) (l : list (string * cell)) : float :=
  (sum_of f l / PyFloat.of_int (Z.of_nat (length l)))%float.

(** The panel as a function of what the ledger shows. *)
Definition panel_of (l : list (string * cell)) : exn + quick_stats :=
  if Z.of_nat (length l) =? 0 then inl ZeroDivisionError
  else inr (QuickStats (sum_of capacity l) (mean_of temp l)
                       (sum_of current l) (count_chemistry "LFP" l)
                       (Z.of_nat (length l) - count_chemistry "LFP" l)).

(** ** Bounds and enumeration *)

(** The bounds of the number input (lines 164-165). *)
Definition valid_current (c : float) : bool :=
  ((0 <=? c) && (c <=? 10))%float.

(** The integers from [lo], [n] of them. *)
Definition Zrange (lo : Z) (n : nat) : list Z :=
  map (fun i => lo + Z.of_nat i) (seq 0 n).

(** What holds of a one-decimal temperature [n / 10]: it lies between 25 and
    40, it is the quotient that Python computes for [n / 10], and rounding it
    to one decimal again changes nothing. *)
Definition one_decimal_ok (n : Z) : bool :=
  let t := PyFloat.of_decimal false n 1 in
  (25 <=? t)%float && (t <=? 40)%float
  && PrimFloat.Leibniz.eqb t (PyFloat.of_int n / 10)%float
  && PrimFloat.Leibniz.eqb (PyFloat.round t 1) t.

(** ** Concrete ledgers *)

(** A ledger to try things on: what "Generate Cells" builds for one LFP and
    one NMC cell when both draws are 30.04. *)
Definition demo_types : list string := sidebar_cell_types ["LFP"; "NMC"].

(** The heap and the session that this run leaves. *)
Definition demo_heap : heap :=
  snd (generate_cells demo_types (fun _ => 30.04%float) []).

Definition demo_session : session_state :=
  match fst (generate_cells demo_types (fun _ => 30.04%float) []) with
  | inr ss => ss
  | inl _ => Session [] []
  end.

Definition demo_dict : pydict := cells_data demo_session.

(** The widgets of the demo ledger after the user typed 2.0 and 3.0. *)
Definition demo_inputs (k : string) : float :=
  if String.eqb k "cell_1_lfp" then 2.0%float else 3.0%float.

(** The demo ledger laid out differently: one more record on the heap, and
    the two cells one address further. *)
Definition demo_heap_shifted : heap := new_cell "nmc" 31 :: demo_heap.

Definition demo_dict_shifted : pydict :=
  [("cell_1_lfp", 1%nat); ("cell_2_nmc", 2%nat)].

(** ** Display labels (lines 137, 163 and 295) *)

Module PyText.

(** [s.replace('_', ' ')]: every underscore becomes a space. *)
Definition replace_underscore (s : string) : string :=
  PyStr.map_chars (fun c => if Ascii.eqb c "_" then " "%char else c) s.

(** A cased character of ASCII text: a letter. *)
Definition is_cased (c : ascii) : bool :=
  let n := nat_of_ascii c in
  (((65 <=? n) && (n <=? 90)) || ((97 <=? n) && (n <=? 122)))%nat.

(** [s.title()], on ASCII text: a letter that follows a letter is put in
    lower case, any other letter in upper case. *)
Fixpoint title_from (previous_is_cased : bool) (s : string) : string :=
  match s with
  | EmptyString => EmptyString
  | String c s' =>
      String (if previous_is_cased then PyStr.lower_char c
              else PyStr.upper_char c)
             (title_from (is_cased c) s')
  end.

Definition title (s : string) : string := title_from false s.

End PyText.

(** [cell_key.replace('_', ' ').title()], the name a cell is shown under. *)
Definition label_of (cell_key : string) : string :=
  PyText.title (PyText.replace_underscore cell_key).

(** ** One run of the script (lines 64-312) *)

(** What makes Streamlit run the script: a widget changed, or one of the two
    buttons was clicked (a button is [True] only in the run its click
    starts). *)
Inductive event : Type :=
  | Interaction
  | ClickGenerate
  | ClickUpdate.

(** What the widgets and the random generator hand to a run: the selectbox
    choices, the draws of [random.uniform(25, 40)] and the values of the
    number inputs. *)
Record run_inputs : Type := RunInputs {
  in_choices : list string;
  in_uniform : nat -> float;
  in_number_input : string -> float
}.

(** Lines 74-118: the sidebar builds [cell_types] on every run and generates
    only on a click. *)
Definition sidebar (ev : event) (inp : run_inputs) (ss : session_state)
    : M session_state :=
  let cts := sidebar_cell_types (in_choices inp) in
  match ev with
  | ClickGenerate => generate_cells cts (in_uniform inp)
  | _ => ret ss
  end.

(** One pass from the top of the script to Quick Stats (lines 64-200); the
    overview, the charts and the table only display what the ledger holds.
    The flag tells whether the pass ended in [st.rerun()] (line 182), which
    stops it before Quick Stats. *)
Definition script_pass (ev : event) (inp : run_inputs) (ss : session_state)
    : M (session_state * bool * option quick_stats) :=
  ss1 <- sidebar ev inp ss ;;
  match cells_data ss1 with
  | [] => ret (ss1, false, None)
  | _ :: _ =>
      let pressed := match ev with ClickUpdate => true | _ => false end in
      ss2 <- current_input_tab (in_number_input inp) pressed ss1 ;;
      if pressed then ret (ss2, true, None)
      else qs <- quick_stats_panel (cells_data ss2) ;;
           ret (ss2, false, Some qs)
  end.

(** A run: one pass and, after [st.rerun()], a second pass in which no
    button is pressed and the widgets hold what they held. *)
Definition script_run (ev : event) (inp : run_inputs) (ss : session_state)
    : M (session_state * option quick_stats) :=
  r <- script_pass ev inp ss ;;
  if snd (fst r) then
    r' <- script_pass Interaction inp (fst (fst r)) ;;
    ret (fst (fst r'), snd r')
  else ret (fst (fst r), snd r).

(** ** What the widgets guarantee, and what the script keeps *)

(** The slider gives 1 to 12 cells, each selectbox one of its two options,
    [random.uniform(25, 40)] a value between its bounds and each number
    input a value between its [min_value] and [max_value]. *)
Definition valid_inputs (inp : run_inputs) : Prop :=
  (1 <= length (in_choices inp) <= 12)%nat /\
  Forall (fun c => c = "LFP" \/ c = "NMC") (in_choices inp) /\
  (forall i, (25 <=? in_uniform inp i)%float = true /\
             (in_uniform inp i <=? 40)%float = true) /\
  (forall k, valid_current (in_number_input inp k) = true).

(** A record as the data model wants it. *)
Definition cell_ok (r : cell) : Prop :=
  capacity r = PyFloat.round (voltage r * current r) 2 /\
  valid_current (current r) = true /\
  ((type r = "LFP" /\ voltage r = 3.2%float /\
    min_voltage r = 2.8%float /\ max_voltage r = 3.6%float) \/
   (type r = "NMC" /\ voltage r = 3.6%float /\
    min_voltage r = 3.2%float /\ max_voltage r = 4.0%float)) /\
  (exists n, 250 <= n <= 400 /\ temp r = (PyFloat.of_int n / 10)%float).

Definition ledger_ok (h : heap) (ss : session_state) : Prop :=
  wf_store h (cells_data ss) = true /\
  Forall (fun kr => cell_ok (snd kr)) (ledger h (cells_data ss)).

(** The states of a session: the initial one (lines 65-68) and those that
    runs with valid inputs lead to. *)
Inductive reachable : heap -> session_state -> Prop :=
  | reach_init : reachable [] (Session [] [])
  | reach_run (h h' : heap) (ss ss' : session_state) (ev : event)
      (inp : run_inputs) (out : option quick_stats) :
      reachable h ss ->
      valid_inputs inp ->
      script_run ev inp ss h = (inr (ss', out), h') ->
      reachable h' ss'.

(** The record of a cell once the loop has passed over it. *)
Definition with_input (number_input : string -> float) (kr : string * cell)
    : string * cell :=
  (fst kr, with_current (snd kr) (number_input (fst kr))).

(** Text of ASCII characters only, on which the case mappings above are
    those of Python. *)
Fixpoint ascii_text (s : string) : bool :=
  match s with
  | EmptyString => true
  | String c s' => (nat_of_ascii c <? 128)%nat && ascii_text s'
  end.

(** Every stored current lies within the bounds of its number input, so
    that line 166 may pass it as the input's [value]. *)
Definition currents_in_range (h : heap) (d : pydict) : bool :=
  forallb (fun kr => valid_current (current (snd kr))) (ledger h d).

(** Number inputs that all hold 0.0, the value a new cell starts with. *)
Definition zero_inputs : run_inputs :=
  RunInputs ["LFP"; "NMC"] (fun _ => 30.04%float) (fun _ => 0%float).

(** The inputs of a run on the demo ledger. *)
Definition demo_run_inputs : run_inputs :=
  RunInputs ["LFP"; "NMC"] (fun _ => 30.04%float) demo_inputs.

(** * Properties *)

(** ** Dictionaries *)

Lemma dict_get_app (d1 d2 : pydict) (k : string) :
  dict_get (d1 ++ d2) k =
  match dict_get d1 k with Some a => Some a | None => dict_get d2 k end.
Proof.
  induction d1 as [|[k' a'] d1 IH]; simpl; [reflexivity|].
  destruct (String.eqb k' k); [reflexivity | exact IH].
Qed.

Lemma dict_set_fresh (d : pydict) (k : string) (a : addr) :
  dict_get d k = None -> dict_set d k a = d ++ [(k, a)].
Proof.
  induction d as [|[k' a'] d IH]; simpl; [reflexivity|].
  destruct (String.eqb k' k); [discriminate|].
  intros H. now rewrite IH.
Qed.

Lemma dict_get_Some_elem (d : pydict) (k : string) (a : addr) :
  dict_get d k = Some a -> (k, a) ∈ d.
Proof.
  induction d as [|[k' a'] d IH]; simpl; [discriminate|].
  destruct (String.eqb_spec k' k) as [->|Hne].
  - intros [= ->]. apply list_elem_of_here.
  - intros H. apply list_elem_of_further, IH, H.
Qed.

Lemma dict_get_None_notin (d : pydict) (k : string) :
  dict_get d k = None <-> k ∉ map fst d.
Proof.
  induction d as [|[k' a'] d IH]; simpl.
  - split; [intros _; apply not_elem_of_nil | reflexivity].
  - destruct (String.eqb_spec k' k) as [->|Hne].
    + split; [discriminate|]. intros H. exfalso. apply H, list_elem_of_here.
    + rewrite IH, not_elem_of_cons. intuition congruence.
Qed.

(** Two keys bound to one address are one key, when no record is shared. *)
Lemma dict_get_addr_inj (d : pydict) (k1 k2 : string) (a : addr) :
  NoDup (map snd d) ->
  dict_get d k1 = Some a -> dict_get d k2 = Some a -> k1 = k2.
Proof.
  induction d as [|[k' a'] d IH]; simpl; [discriminate|].
  intros Hnd. apply NoDup_cons in Hnd as [Hnotin Hnd].
  destruct (String.eqb_spec k' k1) as [E1|Hne1];
    destruct (String.eqb_spec k' k2) as [E2|Hne2].
  - congruence.
  - intros [= ->] H2. exfalso. apply Hnotin.
    apply dict_get_Some_elem in H2.
    apply (list_elem_of_fmap_2 snd) in H2. exact H2.
  - intros H1 [= ->]. exfalso. apply Hnotin.
    apply dict_get_Some_elem in H1.
    apply (list_elem_of_fmap_2 snd) in H1. exact H1.
  - apply IH, Hnd.
Qed.

(** ** Cell identifiers *)

(** A run of digits followed by an underscore determines the digits. *)
Lemma digits_before_underscore (d1 d2 : Decimal.uint) (t1 t2 : string) :
  (NilEmpty.string_of_uint d1 ++ String "_" t1 =
   NilEmpty.string_of_uint d2 ++ String "_" t2)%string ->
  d1 = d2.
Proof.
  revert d2; induction d1; intros d2; destruct d2; simpl; intros H;
    try discriminate H; try reflexivity;
    injection H as H; f_equal; apply IHd1, H.
Qed.

(** Identifiers of different indices differ, whatever the cell types. *)
Lemma cell_key_of_inj (i j : nat) (c1 c2 : string) :
  cell_key_of i c1 = cell_key_of j c2 -> i = j.
Proof.
  unfold cell_key_of, PyStr.of_nat. simpl. intros H.
  injection H as H.
  apply digits_before_underscore in H.
  apply Unsigned.to_uint_inj, H.
Qed.

(** ** The "Generate Cells" loop *)

Lemma length_new_cells (cts : list string) (idx : nat) (uniform : nat -> float) :
  length (new_cells idx cts uniform) = length cts.
Proof.
  revert idx; induction cts as [|ct cts IH]; intros idx; simpl; auto.
Qed.

Lemma lookup_new_cells (cts : list string) (idx i : nat) (uniform : nat -> float) :
  new_cells idx cts uniform !! i =
  (fun ct => (cell_key_of (idx + i) ct, new_cell ct (uniform (idx + i)%nat)))
    <$> cts !! i.
Proof.
  revert idx i; induction cts as [|ct cts IH]; intros idx [|i]; simpl;
    try reflexivity.
  - now rewrite Nat.add_0_r.
  - rewrite IH. now rewrite Nat.add_succ_r.
Qed.

(** The loop allocates one record per cell type, after the records already
    on the heap, and binds the identifiers in order; no identifier of the
    indices from [idx] on is bound before. *)
Lemma generate_loop_spec (cts : list string) :
  forall (idx : nat) (uniform : nat -> float) (d : pydict) (h : heap),
    (forall j c, (idx <= j)%nat -> dict_get d (cell_key_of j c) = None) ->
    generate_loop idx cts uniform d h =
    (inr (d ++ zip (map fst (new_cells idx cts uniform))
                   (seq (length h) (length cts))),
     h ++ map snd (new_cells idx cts uniform)).
Proof.
  induction cts as [|ct cts IH]; intros idx uniform d h Hfresh; simpl.
  - unfold ret. now rewrite !app_nil_r.
  - unfold bind, alloc.
    rewrite dict_set_fresh by (apply Hfresh; lia).
    rewrite IH.
    + rewrite length_app. simpl. rewrite Nat.add_1_r.
      now rewrite <- !app_assoc.
    + intros j c Hj. rewrite dict_get_app, Hfresh by lia. cbn [dict_get].
      destruct (String.eqb_spec (cell_key_of idx ct) (cell_key_of j c)) as [E|_];
        [|reflexivity].
      apply cell_key_of_inj in E. lia.
Qed.

(** Reading fresh records back through their addresses. *)
Lemma ledger_fresh (h : heap) (kcs : list (string * cell)) (pre : list cell) :
  ledger (h ++ pre ++ map snd kcs)
         (zip (map fst kcs) (seq (length h + length pre) (length kcs)))
  = kcs.
Proof.
  revert pre; induction kcs as [|[k c] kcs IH]; intros pre; simpl;
    [reflexivity|].
  assert (E : (h ++ pre ++ c :: map snd kcs) !! (length h + length pre)%nat
               = Some c).
  { rewrite app_assoc. apply list_lookup_middle. now rewrite length_app. }
  unfold ledger in *. cbn [omap list_omap zip_with map fst snd seq length].
  rewrite E. simpl. f_equal.
  specialize (IH (pre ++ [c])).
  rewrite length_app in IH. simpl in IH.
  rewrite <- app_assoc in IH. simpl in IH.
  replace (length h + (length pre + 1))%nat with (S (length h + length pre))
    in IH by lia.
  exact IH.
Qed.

(** The handler never raises, and a reader of the new [cells_data] sees
    exactly the expected entries. *)
Lemma generate_cells_spec (cts : list string) (uniform : nat -> float) (h : heap) :
  exists ss h',
    generate_cells cts uniform h = (inr ss, h') /\
    cell_types ss = cts /\
    ledger h' (cells_data ss) = new_cells 1 cts uniform.
Proof.
  unfold generate_cells, bind.
  rewrite generate_loop_spec by reflexivity.
  eexists _, _. split; [reflexivity|]. split; [reflexivity|].
  simpl.
  pose proof (ledger_fresh h (new_cells 1 cts uniform) []) as L.
  simpl in L. rewrite Nat.add_0_r, length_new_cells in L. exact L.
Qed.

(** ** Well-formed stores *)

Lemma wf_store_unfold (h : heap) (d : pydict) :
  wf_store h d = true <->
  NoDup (map fst d) /\ NoDup (map snd d) /\
  Forall (fun ka : string * nat => (snd ka < length h)%nat) d.
Proof.
  unfold wf_store. rewrite !andb_true_iff, !bool_decide_eq_true.
  rewrite forallb_forall, Forall_forall.
  setoid_rewrite bool_decide_eq_true.
  setoid_rewrite list_elem_of_In. tauto.
Qed.

Lemma wf_store_live (h : heap) (d : pydict) (k : string) (a : nat) :
  wf_store h d = true -> dict_get d k = Some a -> is_Some (h !! a).
Proof.
  intros Hwf Hget. apply wf_store_unfold in Hwf as (_ & _ & Hlive).
  apply dict_get_Some_elem in Hget.
  rewrite Forall_forall in Hlive. apply Hlive in Hget.
  apply lookup_lt_is_Some_2, Hget.
Qed.

(** In a well-formed store a present key has a record. *)
Lemma lookup_cell_is_Some (h : heap) (d : pydict) (k : string) :
  wf_store h d = true ->
  (is_Some (lookup_cell h d k) <-> is_Some (dict_get d k)).
Proof.
  intros Hwf. unfold lookup_cell.
  destruct (dict_get d k) as [a|] eqn:Hget; simpl.
  - split; [eauto | intros _; eapply wf_store_live; eauto].
  - split; intros [? [=]].
Qed.

(** ** One update of a current (lines 175-177) *)

Lemma bind_inr {A B} (m : M A) (f : A -> M B) (h h' : heap) (x : A) :
  m h = (inr x, h') -> bind m f h = f x h'.
Proof. intros H. unfold bind. now rewrite H. Qed.

Lemma bind_inl {A B} (m : M A) (f : A -> M B) (h h' : heap) (e : exn) :
  m h = (inl e, h') -> bind m f h = (inl e, h').
Proof. intros H. unfold bind. now rewrite H. Qed.

Lemma subscript_Some (d : pydict) (k : string) (a : nat) (h : heap) :
  dict_get d k = Some a -> subscript d k h = (inr a, h).
Proof. intros H. unfold subscript. now rewrite H. Qed.

Lemma deref_Some (a : nat) (r : cell) (h : heap) :
  h !! a = Some r -> deref a h = (inr r, h).
Proof. intros H. unfold deref. now rewrite H. Qed.

Lemma deref_None (a : nat) (h : heap) :
  h !! a = None -> deref a h = (inl (DanglingRef a), h).
Proof. intros H. unfold deref. now rewrite H. Qed.

Lemma setitem_current_Some (a : nat) (r : cell) (x : float) (h : heap) :
  h !! a = Some r ->
  setitem_current a x h =
  (inr tt, <[a := Cell (voltage r) x (temp r) (capacity r)
                       (min_voltage r) (max_voltage r) (type r)]> h).
Proof.
  intros H. unfold setitem_current.
  now rewrite (bind_inr _ _ _ _ _ (deref_Some _ _ _ H)).
Qed.

Lemma setitem_capacity_Some (a : nat) (r : cell) (x : float) (h : heap) :
  h !! a = Some r ->
  setitem_capacity a x h =
  (inr tt, <[a := Cell (voltage r) (current r) (temp r) x
                       (min_voltage r) (max_voltage r) (type r)]> h).
Proof.
  intros H. unfold setitem_capacity.
  now rewrite (bind_inr _ _ _ _ _ (deref_Some _ _ _ H)).
Qed.

Lemma set_current_ok (h : heap) (d : pydict) (k : string) (a : nat)
    (r : cell) (c : float) :
  dict_get d k = Some a -> h !! a = Some r ->
  set_current d k c h = (inr tt, <[a := with_current r c]> h).
Proof.
  intros Hget Hr.
  assert (Hlt : (a < length h)%nat) by (eapply lookup_lt_Some; eauto).
  unfold set_current.
  rewrite (bind_inr _ _ _ _ _ (subscript_Some _ _ _ _ Hget)).
  rewrite (bind_inr _ _ _ _ _ (deref_Some _ _ _ Hr)).
  rewrite (bind_inr _ _ _ _ _ (subscript_Some _ _ _ _ Hget)).
  rewrite (bind_inr _ _ _ _ _ (setitem_current_Some _ _ c _ Hr)).
  rewrite (bind_inr _ _ _ _ _ (subscript_Some _ _ _ _ Hget)).
  erewrite setitem_capacity_Some
    by (apply list_lookup_insert_eq; exact Hlt).
  rewrite list_insert_insert_eq. reflexivity.
Qed.

Lemma set_current_dangling (h : heap) (d : pydict) (k : string) (a : nat)
    (c : float) :
  dict_get d k = Some a -> h !! a = None ->
  set_current d k c h = (inl (DanglingRef a), h).
Proof.
  intros Hget Hr. unfold set_current.
  rewrite (bind_inr _ _ _ _ _ (subscript_Some _ _ _ _ Hget)).
  now rewrite (bind_inl _ _ _ _ _ (deref_None _ _ Hr)).
Qed.

Lemma set_current_missing (h : heap) (d : pydict) (k : string) (c : float) :
  dict_get d k = None -> set_current d k c h = (inl (KeyError k), h).
Proof.
  intros Hget. unfold set_current, bind, subscript, raise. now rewrite Hget.
Qed.

(** Reading any key after the record at [a] was replaced. *)
Lemma lookup_cell_insert (h : heap) (d : pydict) (k k' : string) (a : nat)
    (r' : cell) :
  NoDup (map snd d) -> dict_get d k = Some a -> (a < length h)%nat ->
  lookup_cell (<[a := r']> h) d k' =
  if String.eqb k k' then Some r' else lookup_cell h d k'.
Proof.
  intros Hnd Hget Hlt. unfold lookup_cell.
  destruct (String.eqb_spec k k') as [<-|Hne].
  - rewrite Hget. simpl. now apply list_lookup_insert_eq.
  - destruct (dict_get d k') as [a'|] eqn:Hget'; simpl; [|reflexivity].
    apply list_lookup_insert_ne. intros ->.
    apply Hne. eapply dict_get_addr_inj; eauto.
Qed.

(** ** Readers *)

Lemma ledger_cons (h : heap) (k : string) (a : nat) (d : pydict) :
  ledger h ((k, a) :: d) =
  match h !! a with
  | Some r => (k, r) :: ledger h d
  | None => ledger h d
  end.
Proof. unfold ledger. simpl. now destruct (h !! a). Qed.

(** With every address live, [values()] returns the records of the ledger,
    in order, and leaves the heap as it is. *)
Lemma dict_values_live (h : heap) (d : pydict) :
  Forall (fun ka : string * nat => (snd ka < length h)%nat) d ->
  dict_values d h = (inr (map snd (ledger h d)), h) /\
  length (ledger h d) = length d /\
  map fst (ledger h d) = map fst d.
Proof.
  induction d as [|[k a] d IH]; intros Hlive.
  - repeat split.
  - apply Forall_cons in Hlive as [Ha Hlive]. simpl in Ha.
    destruct (IH Hlive) as (IHv & IHl & IHk).
    destruct (lookup_lt_is_Some_2 h a Ha) as [r Hr].
    rewrite ledger_cons, Hr. simpl.
    rewrite (bind_inr _ _ _ _ _ (deref_Some _ _ _ Hr)).
    rewrite (bind_inr _ _ _ _ _ IHv).
    repeat split; [now rewrite IHl | now rewrite IHk].
Qed.

Lemma dict_values_wf (h : heap) (d : pydict) :
  wf_store h d = true -> dict_values d h = (inr (map snd (ledger h d)), h).
Proof.
  intros Hwf. apply wf_store_unfold in Hwf as (_ & _ & Hlive).
  now apply dict_values_live.
Qed.

Lemma length_ledger_wf (h : heap) (d : pydict) :
  wf_store h d = true -> length (ledger h d) = length d.
Proof.
  intros Hwf. apply wf_store_unfold in Hwf as (_ & _ & Hlive).
  now apply dict_values_live.
Qed.

Lemma keys_ledger_wf (h : heap) (d : pydict) :
  wf_store h d = true -> map fst (ledger h d) = dict_keys d.
Proof.
  intros Hwf. apply wf_store_unfold in Hwf as (_ & _ & Hlive).
  now apply dict_values_live.
Qed.

Lemma ledger_insert_sub (h : heap) (k : string) (a : nat) (r : cell)
    (c : float) (l : pydict) :
  h !! a = Some r ->
  Forall (fun ka : string * nat => snd ka = a <-> fst ka = k) l ->
  ledger (<[a := with_current r c]> h) l = ledger_update k c (ledger h l).
Proof.
  intros Hr. induction l as [|[k' a'] l IH]; intros Hall; [reflexivity|].
  apply Forall_cons in Hall as [Hka Hall]. simpl in Hka.
  rewrite !ledger_cons, IH by exact Hall.
  destruct (decide (a' = a)) as [->|Hne].
  - rewrite list_lookup_insert_eq by (eapply lookup_lt_Some; eauto).
    rewrite Hr. unfold ledger_update. simpl.
    destruct (String.eqb_spec k k') as [_|Hk]; [reflexivity|].
    exfalso. apply Hk. symmetry. now apply Hka.
  - rewrite list_lookup_insert_ne by congruence.
    destruct (h !! a') as [r'|]; [|reflexivity].
    unfold ledger_update. simpl.
    destruct (String.eqb_spec k k') as [Hk|_]; [|reflexivity].
    exfalso. apply Hne. now apply Hka.
Qed.

Lemma dict_get_elem (d : pydict) (k : string) (a : nat) :
  NoDup (map fst d) -> (k, a) ∈ d -> dict_get d k = Some a.
Proof.
  induction d as [|[k' a'] d IH]; simpl; intros Hnd Hin.
  - now apply elem_of_nil in Hin.
  - apply NoDup_cons in Hnd as [Hnotin Hnd].
    apply elem_of_cons in Hin as [[= <- <-]|Hin].
    + now rewrite String.eqb_refl.
    + destruct (String.eqb_spec k' k) as [->|_]; [|now apply IH].
      exfalso. apply Hnotin.
      apply (list_elem_of_fmap_2 fst) in Hin. exact Hin.
Qed.

(** [set_current] seen from the readers' side. *)
Lemma ledger_set_current (h : heap) (d : pydict) (k : string) (c : float) :
  wf_store h d = true -> is_Some (dict_get d k) ->
  exists h', set_current d k c h = (inr tt, h') /\
             ledger h' d = ledger_update k c (ledger h d) /\
             wf_store h' d = true.
Proof.
  intros Hwf [a Hget].
  destruct (wf_store_live h d k a Hwf Hget) as [r Hr].
  exists (<[a := with_current r c]> h).
  split; [now apply set_current_ok|].
  pose proof Hwf as Hwf'.
  apply wf_store_unfold in Hwf as (Hk & Ha & Hlive).
  split.
  - apply ledger_insert_sub; [exact Hr|].
    apply Forall_forall. intros [k' a'] Hin. simpl. split.
    + intros ->. eapply dict_get_addr_inj; eauto using dict_get_elem.
    + intros ->. apply dict_get_elem in Hin; congruence.
  - apply wf_store_unfold. rewrite length_insert. auto.
Qed.

(** ** Rounding a temperature draw (line 104) *)

Module RoundFacts.

Import PyFloat.

Lemma round_half_even_bounds (p q lo hi : Z) :
  0 < q -> lo * q <= p -> p <= hi * q ->
  lo <= round_half_even p q <= hi.
Proof.
  intros Hq Hlo Hhi. unfold round_half_even.
  pose proof (Z_div_mod p q ltac:(lia)) as Hdm.
  destruct (Z.div_eucl p q) as [d r]. destruct Hdm as [Hp Hr].
  assert (lo <= d) by nia.
  assert (d <= hi) by nia.
  assert (d = hi -> r = 0) by nia.
  destruct (Z.compare_spec (2 * r) q); [destruct (Z.even d)| |]; lia.
Qed.

Lemma digits2_pos_size (m : positive) : digits2_pos m = Pos.size m.
Proof. induction m; simpl; congruence. Qed.

(** A canonical mantissa of 53 digits lies in [2^52, 2^53). *)
Lemma mantissa_53 (m : positive) :
  Z.pos (digits2_pos m) = 53 -> 2 ^ 52 <= Z.pos m < 2 ^ 53.
Proof.
  rewrite digits2_pos_size. intros H.
  assert (Hs : Pos.size m = 53%positive) by congruence.
  pose proof (Pos.size_gt m) as Hgt. pose proof (Pos.size_le m) as Hle.
  rewrite Hs in Hgt, Hle.
  assert (E : (2 ^ 53)%positive = 9007199254740992%positive)
    by (vm_compute; reflexivity).
  rewrite E in Hgt, Hle. clear H Hs E.
  apply Pos2Z.pos_lt_pos in Hgt. apply Pos2Z.pos_le_pos in Hle.
  rewrite Pos2Z.inj_xO in Hle.
  change (2 ^ 52) with 4503599627370496.
  change (2 ^ 53) with 9007199254740992.
  lia.
Qed.

Lemma Prim2SF_25 : Prim2SF 25 = S754_finite false 7036874417766400 (-48).
Proof. reflexivity. Qed.

Lemma Prim2SF_40 : Prim2SF 40 = S754_finite false 5629499534213120 (-47).
Proof. reflexivity. Qed.

(** Reading the comparison of two positive finite floats. *)
Lemma finite_leb_cases (e1 e2 : Z) (m1 m2 : positive) :
  match
    match e1 ?= e2 with
    | Eq => Pos.compare_cont Eq m1 m2
    | Lt => Lt
    | Gt => Gt
    end
  with
  | Gt => false
  | _ => true
  end = true ->
  e1 < e2 \/ (e1 = e2 /\ Z.pos m1 <= Z.pos m2).
Proof.
  destruct (Z.compare_spec e1 e2) as [E|L|G]; intros H.
  - right. split; [exact E|].
    change (Pos.compare_cont Eq m1 m2) with (Z.pos m1 ?= Z.pos m2) in H.
    destruct (Z.compare_spec (Z.pos m1) (Z.pos m2)) as [E'|L'|G'];
      [rewrite E'; reflexivity | apply Z.lt_le_incl, L' | discriminate H].
  - left. exact L.
  - discriminate H.
Qed.

(** The floats between 25 and 40: positive, with exponent -48 (below 32) or
    -47 (from 32 on). *)
Lemma between_25_40 (u : float) :
  (25 <=? u)%float = true -> (u <=? 40)%float = true ->
  exists m e,
    Prim2SF u = S754_finite false m e /\
    ((e = -48 /\ 25 * 2 ^ 48 <= Z.pos m < 32 * 2 ^ 48) \/
     (e = -47 /\ 32 * 2 ^ 47 <= Z.pos m <= 40 * 2 ^ 47)).
Proof.
  rewrite !leb_spec, Prim2SF_25, Prim2SF_40.
  pose proof (Prim2SF_valid u) as Hv.
  destruct (Prim2SF u) as [s|s| |s m e];
    cbv beta iota delta [SFleb SFcompare]; try discriminate.
  - destruct s; intros H1 H2; first [discriminate H1 | discriminate H2].
  - destruct s; intros H1 H2; [discriminate H1|].
    apply finite_leb_cases in H1, H2.
    cbv beta iota delta [valid_binary bounded canonical_mantissa fexp
                         SpecFloat.emin] in Hv.
    apply andb_true_iff in Hv as [Hc _]. apply Z.eqb_eq in Hc.
    change prec with 53 in Hc. change emax with 1024 in Hc.
    exists m, e. split; [reflexivity|].
    change (2 ^ 48) with 281474976710656.
    change (2 ^ 47) with 140737488355328.
    assert (He : e = -48 \/ e = -47) by lia.
    assert (Hd : Z.pos (digits2_pos m) = 53) by lia.
    apply mantissa_53 in Hd.
    change (2 ^ 52) with 4503599627370496 in Hd.
    change (2 ^ 53) with 9007199254740992 in Hd.
    clear Hc. lia.
Qed.

Lemma forallb_Zrange (P : Z -> bool) (lo : Z) (n : nat) (z : Z) :
  forallb P (Zrange lo n) = true -> lo <= z < lo + Z.of_nat n -> P z = true.
Proof.
  intros Hall Hz. rewrite forallb_forall in Hall. apply Hall.
  unfold Zrange. apply in_map_iff. exists (Z.to_nat (z - lo)).
  split; [lia|]. apply in_seq. lia.
Qed.

Lemma one_decimal_ok_all :
  forallb one_decimal_ok (Zrange 250 151) = true.
Proof. vm_compute. reflexivity. Qed.

(** Line 104: a draw between 25 and 40 rounds to [n / 10] for an integer
    [n] between 250 and 400. *)
Lemma round_draw (u : float) :
  (25 <=? u)%float = true -> (u <=? 40)%float = true ->
  exists n, 250 <= n <= 400 /\ round u 1 = of_decimal false n 1.
Proof.
  intros H1 H2.
  destruct (between_25_40 u H1 H2) as (m & e & Hu & Hme).
  unfold round. rewrite Hu.
  change (323 <? 1)%nat with false. cbv iota.
  exists (scaled_digits m e (Z.of_nat 1)). split; [|reflexivity].
  change (Z.of_nat 1) with 1.
  destruct Hme as [[-> Hm]|[-> Hm]]; unfold scaled_digits;
    change (0 <=? -48) with false; change (0 <=? -47) with false; cbv iota;
    change (- -48) with 48; change (- -47) with 47; change (10 ^ 1) with 10.
  - assert (250 <= round_half_even (Z.pos m * 10) (2 ^ 48) <= 320); [|lia].
    apply round_half_even_bounds; lia.
  - assert (320 <= round_half_even (Z.pos m * 10) (2 ^ 47) <= 400); [|lia].
    apply round_half_even_bounds; lia.
Qed.

End RoundFacts.

(** ** Setting a current *)

(** C1. For every ledger, every cell identifier present in it and every new
    current within [0.0, 10.0], [set_current] succeeds, and afterwards the
    record of that identifier carries the new current and the capacity
    [round(voltage * new_current, 2)], the voltage being the one stored in
    the record. *)
Theorem set_current_sets_current_and_capacity
    (h : heap) (d : pydict) (k : string) (r : cell) (c : float) :
  lookup_cell h d k = Some r ->
  valid_current c = true ->
  exists h' r',
    set_current d k c h = (inr tt, h') /\
    lookup_cell h' d k = Some r' /\
    current r' = c /\
    capacity r' = PyFloat.round (voltage r * c) 2.
Proof.
  intros Hk _. unfold lookup_cell in Hk.
  destruct (dict_get d k) as [a|] eqn:Hget; simpl in Hk; [|discriminate].
  exists (<[a := with_current r c]> h), (with_current r c).
  split; [now apply set_current_ok|].
  split; [|split; reflexivity].
  unfold lookup_cell. rewrite Hget. simpl.
  apply list_lookup_insert_eq. eapply lookup_lt_Some; eauto.
Qed.

Lemma set_current_sets_current_and_capacity_witness :
  exists h' r',
    set_current demo_dict "cell_1_lfp" 2 demo_heap = (inr tt, h') /\
    lookup_cell h' demo_dict "cell_1_lfp" = Some r' /\
    current r' = 2%float /\
    capacity r' = PyFloat.round (3.2 * 2) 2.
Proof.
  apply (set_current_sets_current_and_capacity demo_heap demo_dict
           "cell_1_lfp" (new_cell "lfp" 30.04) 2).
  - vm_compute. reflexivity.
  - vm_compute. reflexivity.
Defined.

(** C5. For every well-formed ledger, existing identifier and in-range new
    current, [set_current] leaves voltage, minimum and maximum voltage,
    temperature and chemistry of the target record as they were, leaves every
    other record unchanged, and keeps the identifiers and their order. *)
Theorem set_current_frame
    (h : heap) (d : pydict) (k : string) (r : cell) (c : float) :
  wf_store h d = true ->
  lookup_cell h d k = Some r ->
  valid_current c = true ->
  exists h' r',
    set_current d k c h = (inr tt, h') /\
    lookup_cell h' d k = Some r' /\
    voltage r' = voltage r /\
    min_voltage r' = min_voltage r /\
    max_voltage r' = max_voltage r /\
    temp r' = temp r /\
    type r' = type r /\
    (forall k', k' <> k -> lookup_cell h' d k' = lookup_cell h d k') /\
    map fst (ledger h' d) = map fst (ledger h d).
Proof.
  intros Hwf Hk _. pose proof Hk as Hk'. unfold lookup_cell in Hk.
  destruct (dict_get d k) as [a|] eqn:Hget; simpl in Hk; [|discriminate].
  assert (Hlt : (a < length h)%nat) by (eapply lookup_lt_Some; eauto).
  pose proof Hwf as Hwf'.
  apply wf_store_unfold in Hwf' as (Hkeys & Haddrs & Hlive).
  exists (<[a := with_current r c]> h), (with_current r c).
  split; [now apply set_current_ok|].
  split; [rewrite (lookup_cell_insert h d k k a) by assumption;
          now rewrite String.eqb_refl|].
  do 5 (split; [reflexivity|]).
  split.
  - intros k' Hne. rewrite (lookup_cell_insert h d k k' a) by assumption.
    destruct (String.eqb_spec k k'); congruence.
  - destruct (ledger_set_current h d k c Hwf (ex_intro _ a Hget))
      as (h' & Hrun & Hl & Hwf'').
    rewrite (set_current_ok h d k a r c Hget Hk) in Hrun.
    injection Hrun as <-.
    now rewrite (keys_ledger_wf _ _ Hwf''), (keys_ledger_wf _ _ Hwf).
Qed.

Lemma set_current_frame_witness :
  exists h' r',
    set_current demo_dict "cell_1_lfp" 2 demo_heap = (inr tt, h') /\
    lookup_cell h' demo_dict "cell_1_lfp" = Some r' /\
    voltage r' = 3.2%float /\
    min_voltage r' = 2.8%float /\
    max_voltage r' = 3.6%float /\
    temp r' = 30%float /\
    type r' = "LFP" /\
    (forall k', k' <> "cell_1_lfp" ->
       lookup_cell h' demo_dict k' = lookup_cell demo_heap demo_dict k') /\
    map fst (ledger h' demo_dict) = map fst (ledger demo_heap demo_dict).
Proof.
  apply (set_current_frame demo_heap demo_dict "cell_1_lfp"
           (new_cell "lfp" 30.04) 2).
  - vm_compute. reflexivity.
  - vm_compute. reflexivity.
  - vm_compute. reflexivity.
Defined.

(** C8, as the claim states it, fails: the update has no range check.  On the
    demo ledger the out-of-range current -1 is stored like any other value,
    with capacity [round(3.2 * -1, 2) = -3.2], and nothing is raised. *)
Lemma set_current_accepts_out_of_range :
  valid_current (-1) = false /\
  exists h',
    set_current demo_dict "cell_1_lfp" (-1) demo_heap = (inr tt, h') /\
    current <$> lookup_cell h' demo_dict "cell_1_lfp" = Some (-1)%float /\
    capacity <$> lookup_cell h' demo_dict "cell_1_lfp" = Some (-3.2)%float.
Proof.
  split; [vm_compute; reflexivity|].
  eexists. split; [vm_compute; reflexivity|].
  split; vm_compute; reflexivity.
Qed.

(** C8, amended.  On a well-formed ledger [set_current] fails exactly when
    the identifier is absent, with [KeyError] and with the heap untouched;
    for a present identifier it succeeds for every float, in range or not,
    and stores it as the current together with the capacity
    [round(voltage * new_current, 2)]: the bounds are those of the number
    input, not of the update. *)
Theorem set_current_fails_only_on_missing_key
    (h : heap) (d : pydict) (k : string) (c : float) :
  wf_store h d = true ->
  (k ∉ map fst (ledger h d) ->
     set_current d k c h = (inl (KeyError k), h)) /\
  (k ∈ map fst (ledger h d) ->
     exists r h' r',
       lookup_cell h d k = Some r /\
       set_current d k c h = (inr tt, h') /\
       lookup_cell h' d k = Some r' /\
       current r' = c /\
       capacity r' = PyFloat.round (voltage r * c) 2).
Proof.
  intros Hwf. rewrite (keys_ledger_wf _ _ Hwf). unfold dict_keys. split.
  - intros Hk. apply set_current_missing, dict_get_None_notin, Hk.
  - intros Hk.
    destruct (dict_get d k) as [a|] eqn:Hget.
    + destruct (wf_store_live h d k a Hwf Hget) as [r Hr].
      exists r, (<[a := with_current r c]> h), (with_current r c).
      split; [unfold lookup_cell; now rewrite Hget|].
      split; [exact (set_current_ok h d k a r c Hget Hr)|].
      split; [|split; reflexivity].
      unfold lookup_cell. rewrite Hget. simpl.
      apply list_lookup_insert_eq. eapply lookup_lt_Some; eauto.
    + apply dict_get_None_notin in Hget. contradiction.
Qed.

Lemma set_current_fails_only_on_missing_key_witness :
  set_current demo_dict "cell_9_lfp" 10.1 demo_heap
  = (inl (KeyError "cell_9_lfp"), demo_heap) /\
  exists r h' r',
    lookup_cell demo_heap demo_dict "cell_1_lfp" = Some r /\
    set_current demo_dict "cell_1_lfp" 10.1 demo_heap = (inr tt, h') /\
    lookup_cell h' demo_dict "cell_1_lfp" = Some r' /\
    current r' = 10.1%float /\
    capacity r' = PyFloat.round (voltage r * 10.1) 2.
Proof.
  split.
  - apply (set_current_fails_only_on_missing_key demo_heap demo_dict
             "cell_9_lfp" 10.1).
    + vm_compute. reflexivity.
    + rewrite list_elem_of_In. vm_compute.
      intros [H|[H|[]]]; discriminate H.
  - apply (set_current_fails_only_on_missing_key demo_heap demo_dict
             "cell_1_lfp" 10.1).
    + vm_compute. reflexivity.
    + rewrite list_elem_of_In. vm_compute. left. reflexivity.
Defined.

(** ** Generating cells *)

(** C9, as the claim states it, fails: the handler validates nothing.  It
    returns the empty ledger for the empty sequence, and for a cell type it
    does not know a record with the constants of NMC. *)
Lemma generate_cells_accepts_any_input :
  generate_cells [] (fun _ => 30.04%float) [] = (inr (Session [] []), []) /\
  exists ss h',
    generate_cells ["xyz"] (fun _ => 30.04%float) [] = (inr ss, h') /\
    ledger h' (cells_data ss)
    = [("cell_1_xyz", Cell 3.6 0 30 0 3.2 4 "XYZ")].
Proof.
  split; [reflexivity|].
  eexists _, _. split; vm_compute; reflexivity.
Qed.

(** C9, amended.  "Generate Cells" never raises: for every sequence of cell
    types, of any length and with any strings, it returns a ledger with one
    record per element, in order, under the identifier of its 1-based index;
    a cell type other than "lfp" gets the constants of NMC.  The bounds (1 to
    12 cells, LFP or NMC) are those of the slider and of the selectboxes. *)
Theorem generate_cells_never_fails
    (cts : list string) (uniform : nat -> float) (h : heap) :
  exists ss h',
    generate_cells cts uniform h = (inr ss, h') /\
    length (ledger h' (cells_data ss)) = length cts /\
    forall i ct, cts !! i = Some ct ->
      exists r,
        ledger h' (cells_data ss) !! i = Some (cell_key_of (S i) ct, r) /\
        (ct <> "lfp" ->
           voltage r = 3.6%float /\ min_voltage r = 3.2%float /\
           max_voltage r = 4.0%float).
Proof.
  destruct (generate_cells_spec cts uniform h) as (ss & h' & Hrun & _ & Hl).
  exists ss, h'. split; [exact Hrun|]. rewrite Hl.
  split; [apply length_new_cells|].
  intros i ct Hi. exists (new_cell ct (uniform (S i))).
  rewrite lookup_new_cells, Hi. simpl.
  split; [reflexivity|].
  intros Hne. unfold new_cell.
  destruct (String.eqb_spec ct "lfp"); [contradiction|]. auto.
Qed.

(** A temperature of the form [n / 10], between 25.0 and 40.0. *)
Lemma round_draw_one_decimal (u : float) :
  (25 <=? u)%float = true -> (u <=? 40)%float = true ->
  (25 <=? PyFloat.round u 1)%float = true /\
  (PyFloat.round u 1 <=? 40)%float = true /\
  exists n, 250 <= n <= 400 /\
            PyFloat.round u 1 = (PyFloat.of_int n / 10)%float.
Proof.
  intros H1 H2.
  destruct (RoundFacts.round_draw u H1 H2) as (n & Hn & ->).
  pose proof (RoundFacts.forallb_Zrange _ 250 151 n
                RoundFacts.one_decimal_ok_all ltac:(lia)) as Hok.
  unfold one_decimal_ok in Hok.
  apply andb_true_iff in Hok as [Hok _].
  apply andb_true_iff in Hok as [Hok Heq].
  apply andb_true_iff in Hok as [Hlo Hhi].
  apply FloatAxioms.Leibniz.eqb_spec in Heq.
  split; [exact Hlo|]. split; [exact Hhi|].
  exists n. split; [exact Hn | exact Heq].
Qed.

(** C2. For every non-empty sequence of at most 12 chemistries, each LFP or
    NMC, and draws of [random.uniform(25, 40)] that lie between 25 and 40,
    "Generate Cells" yields a ledger with one record per element, in order;
    the record at 1-based position [i] with chemistry [c] has the identifier
    [cell_i_c] with [c] in lower case, chemistry field [c], the voltage,
    minimum and maximum voltage of [c], current 0.0, capacity 0.0 and a
    temperature [n / 10] between 25.0 and 40.0. *)
Theorem generate_cells_records
    (choices : list string) (uniform : nat -> float) (h : heap) :
  (1 <= length choices <= 12)%nat ->
  Forall (fun c => c = "LFP" \/ c = "NMC") choices ->
  (forall i, (25 <=? uniform i)%float = true /\
             (uniform i <=? 40)%float = true) ->
  exists ss h',
    generate_cells (sidebar_cell_types choices) uniform h = (inr ss, h') /\
    length (ledger h' (cells_data ss)) = length choices /\
    forall i c, choices !! i = Some c ->
      exists r,
        ledger h' (cells_data ss) !! i
        = Some (("cell_" ++ PyStr.of_nat (S i) ++ "_"
                   ++ (if String.eqb c "LFP" then "lfp" else "nmc"))%string,
                r) /\
        type r = c /\
        voltage r = (if String.eqb c "LFP" then 3.2 else 3.6)%float /\
        min_voltage r = (if String.eqb c "LFP" then 2.8 else 3.2)%float /\
        max_voltage r = (if String.eqb c "LFP" then 3.6 else 4.0)%float /\
        current r = 0.0%float /\
        capacity r = 0.0%float /\
        (25 <=? temp r)%float = true /\
        (temp r <=? 40)%float = true /\
        exists n, 250 <= n <= 400 /\
                  temp r = (PyFloat.of_int n / 10)%float.
Proof.
  intros _ Hchem Hdraw.
  destruct (generate_cells_spec (sidebar_cell_types choices) uniform h)
    as (ss & h' & Hrun & _ & Hl).
  exists ss, h'. split; [exact Hrun|]. rewrite Hl.
  split; [unfold sidebar_cell_types; now rewrite length_new_cells, length_map|].
  intros i c Hi.
  exists (new_cell (PyStr.lower c) (uniform (S i))).
  rewrite lookup_new_cells. unfold sidebar_cell_types.
  rewrite list_lookup_fmap, Hi. cbn [fmap option_fmap option_map Nat.add].
  destruct (Hdraw (S i)) as [Hlo Hhi].
  destruct (round_draw_one_decimal _ Hlo Hhi) as (Tlo & Thi & Tn).
  rewrite Forall_forall in Hchem.
  destruct (Hchem c (list_elem_of_lookup_2 _ _ _ Hi)) as [->| ->];
    (split; [reflexivity|]);
    (do 6 (split; [vm_compute; reflexivity|]));
    unfold new_cell; cbn [temp]; auto.
Qed.

Lemma generate_cells_records_witness :
  exists ss h',
    generate_cells (sidebar_cell_types ["LFP"; "NMC"; "LFP"])
                   (fun _ => 30.04%float) [] = (inr ss, h') /\
    length (ledger h' (cells_data ss)) = 3%nat /\
    forall i c, ["LFP"; "NMC"; "LFP"] !! i = Some c ->
      exists r,
        ledger h' (cells_data ss) !! i
        = Some (("cell_" ++ PyStr.of_nat (S i) ++ "_"
                   ++ (if String.eqb c "LFP" then "lfp" else "nmc"))%string,
                r) /\
        type r = c /\
        voltage r = (if String.eqb c "LFP" then 3.2 else 3.6)%float /\
        min_voltage r = (if String.eqb c "LFP" then 2.8 else 3.2)%float /\
        max_voltage r = (if String.eqb c "LFP" then 3.6 else 4.0)%float /\
        current r = 0.0%float /\
        capacity r = 0.0%float /\
        (25 <=? temp r)%float = true /\
        (temp r <=? 40)%float = true /\
        exists n, 250 <= n <= 400 /\
                  temp r = (PyFloat.of_int n / 10)%float.
Proof.
  apply (generate_cells_records ["LFP"; "NMC"; "LFP"] (fun _ => 30.04%float) []).
  - simpl. lia.
  - repeat (constructor; [auto|]). constructor.
  - intros _. split; vm_compute; reflexivity.
Defined.

(** ** Quick Stats *)

Lemma py_sum_fields (f : cell -> float) (l : list (string * cell)) :
  py_sum (map f (map snd l)) = sum_of f l.
Proof.
  unfold py_sum, sum_of. generalize 0%float.
  induction l as [|kr l IH]; intros acc; simpl; [reflexivity | apply IH].
Qed.

Lemma py_sum_int_ones {A} (xs : list A) :
  py_sum_int (map (fun _ => 1) xs) = Z.of_nat (length xs).
Proof.
  unfold py_sum_int.
  assert (G : forall acc,
             fold_left Z.add (map (fun _ : A => 1) xs) acc
             = acc + Z.of_nat (length xs)).
  { induction xs as [|x xs IH]; intros acc; simpl length; simpl map;
      simpl fold_left; [lia | rewrite IH; lia]. }
  rewrite G. lia.
Qed.

Lemma length_filter_lfp (l : list (string * cell)) :
  length (filter (fun c => String.eqb (type c) "LFP" = true) (map snd l))
  = length (filter (fun kr => type (snd kr) = "LFP") l).
Proof.
  induction l as [|[k r] l IH]; [reflexivity|].
  simpl map. rewrite !filter_cons. simpl snd.
  destruct (String.eqb_spec (type r) "LFP") as [E|NE].
  - rewrite decide_True by reflexivity. rewrite decide_True by exact E.
    simpl. now rewrite IH.
  - rewrite decide_False by discriminate. rewrite decide_False by exact NE.
    exact IH.
Qed.

(** When every record is LFP or NMC, those that are not LFP are NMC. *)
Lemma count_nmc_complement (l : list (string * cell)) :
  Forall (fun kr => type (snd kr) = "LFP" \/ type (snd kr) = "NMC") l ->
  Z.of_nat (length l) - count_chemistry "LFP" l = count_chemistry "NMC" l.
Proof.
  unfold count_chemistry. induction 1 as [|[k r] l Hx Hl IH]; [reflexivity|].
  rewrite !filter_cons. simpl snd in *.
  destruct Hx as [E|E]; rewrite E.
  - rewrite decide_True by reflexivity. rewrite decide_False by discriminate.
    simpl length. lia.
  - rewrite decide_False by discriminate. rewrite decide_True by reflexivity.
    simpl length. lia.
Qed.

Lemma total_capacity_wf (h : heap) (d : pydict) :
  wf_store h d = true ->
  total_capacity d h = (inr (sum_of capacity (ledger h d)), h).
Proof.
  intros Hwf. unfold total_capacity.
  rewrite (bind_inr _ _ _ _ _ (dict_values_wf h d Hwf)).
  now rewrite py_sum_fields.
Qed.

Lemma total_current_wf (h : heap) (d : pydict) :
  wf_store h d = true ->
  total_current d h = (inr (sum_of current (ledger h d)), h).
Proof.
  intros Hwf. unfold total_current.
  rewrite (bind_inr _ _ _ _ _ (dict_values_wf h d Hwf)).
  now rewrite py_sum_fields.
Qed.

Lemma lfp_count_wf (h : heap) (d : pydict) :
  wf_store h d = true ->
  lfp_count d h = (inr (count_chemistry "LFP" (ledger h d)), h).
Proof.
  intros Hwf. unfold lfp_count.
  rewrite (bind_inr _ _ _ _ _ (dict_values_wf h d Hwf)).
  unfold ret. now rewrite py_sum_int_ones, length_filter_lfp.
Qed.

Lemma avg_temp_wf (h : heap) (d : pydict) :
  wf_store h d = true ->
  avg_temp d h =
  (if Z.of_nat (length (ledger h d)) =? 0 then inl ZeroDivisionError
   else inr (mean_of temp (ledger h d)), h).
Proof.
  intros Hwf. unfold avg_temp.
  rewrite (bind_inr _ _ _ _ _ (dict_values_wf h d Hwf)).
  rewrite py_sum_fields. unfold mean_of.
  rewrite (length_ledger_wf h d Hwf).
  destruct (Z.of_nat (length d) =? 0); reflexivity.
Qed.

Lemma quick_stats_panel_wf (h : heap) (d : pydict) :
  wf_store h d = true ->
  quick_stats_panel d h = (panel_of (ledger h d), h).
Proof.
  intros Hwf. unfold quick_stats_panel, panel_of.
  rewrite (bind_inr _ _ _ _ _ (total_capacity_wf h d Hwf)).
  pose proof (avg_temp_wf h d Hwf) as Ha.
  destruct (Z.of_nat (length (ledger h d)) =? 0).
  - now rewrite (bind_inl _ _ _ _ _ Ha).
  - rewrite (bind_inr _ _ _ _ _ Ha).
    rewrite (bind_inr _ _ _ _ _ (total_current_wf h d Hwf)).
    rewrite (bind_inr _ _ _ _ _ (lfp_count_wf h d Hwf)).
    unfold ret, nmc_count. now rewrite (length_ledger_wf h d Hwf).
Qed.

(** The guard of line 121: on an empty [cells_data] the main area computes
    no statistic at all, so the division of line 187 is never reached with
    a zero divisor. *)
Lemma main_content_empty (number_input : string -> float) (button : bool)
    (ss : session_state) (h : heap) :
  cells_data ss = [] ->
  main_content number_input button ss h = (inr (ss, None), h).
Proof. intros H. unfold main_content. now rewrite H. Qed.

(** C6. For every well-formed ledger whose records are LFP or NMC, the
    queries leave the heap as it is, the total capacity is the sum of the
    capacity fields, the total current the sum of the current fields, and the
    two counts are the numbers of records with exactly the chemistry LFP and
    exactly the chemistry NMC. *)
Theorem quick_stats_aggregates (h : heap) (d : pydict) :
  wf_store h d = true ->
  Forall (fun kr => type (snd kr) = "LFP" \/ type (snd kr) = "NMC")
         (ledger h d) ->
  total_capacity d h = (inr (sum_of capacity (ledger h d)), h) /\
  total_current d h = (inr (sum_of current (ledger h d)), h) /\
  lfp_count d h = (inr (count_chemistry "LFP" (ledger h d)), h) /\
  nmc_count d (count_chemistry "LFP" (ledger h d))
  = count_chemistry "NMC" (ledger h d).
Proof.
  intros Hwf Hchem.
  split; [now apply total_capacity_wf|].
  split; [now apply total_current_wf|].
  split; [now apply lfp_count_wf|].
  unfold nmc_count. rewrite <- (length_ledger_wf h d Hwf).
  now apply count_nmc_complement.
Qed.

Lemma quick_stats_aggregates_witness :
  total_capacity demo_dict demo_heap
  = (inr (sum_of capacity (ledger demo_heap demo_dict)), demo_heap) /\
  total_current demo_dict demo_heap
  = (inr (sum_of current (ledger demo_heap demo_dict)), demo_heap) /\
  lfp_count demo_dict demo_heap
  = (inr (count_chemistry "LFP" (ledger demo_heap demo_dict)), demo_heap) /\
  nmc_count demo_dict (count_chemistry "LFP" (ledger demo_heap demo_dict))
  = count_chemistry "NMC" (ledger demo_heap demo_dict).
Proof.
  apply (quick_stats_aggregates demo_heap demo_dict).
  - vm_compute. reflexivity.
  - repeat (constructor; [auto|]). constructor.
Defined.

(** C7. On a well-formed ledger with at least one cell the average
    temperature is the arithmetic mean of the temperature fields; on a ledger
    with no cell the division raises instead of returning a value. *)
Theorem avg_temp_mean_or_error (h : heap) (d : pydict) :
  wf_store h d = true ->
  (ledger h d <> [] ->
     avg_temp d h = (inr (mean_of temp (ledger h d)), h)) /\
  (ledger h d = [] -> avg_temp d h = (inl ZeroDivisionError, h)).
Proof.
  intros Hwf. rewrite (avg_temp_wf h d Hwf).
  split; intros Hl.
  - destruct (ledger h d); [contradiction | reflexivity].
  - now rewrite Hl.
Qed.

Lemma avg_temp_mean_or_error_witness :
  avg_temp demo_dict demo_heap = (inr 30%float, demo_heap) /\
  avg_temp [] [] = (inl ZeroDivisionError, []).
Proof.
  split.
  - apply (proj1 (avg_temp_mean_or_error demo_heap demo_dict eq_refl)).
    discriminate.
  - apply (proj2 (avg_temp_mean_or_error [] [] eq_refl)).
    reflexivity.
Defined.

(** ** The update loop and its commit *)

(** On a well-formed store the loop never raises, and once it is over a
    reader of the dictionary sees every requested current. *)
Lemma update_loop_spec (number_input : string -> float) (d : pydict)
    (keys : list string) :
  forall h : heap,
    wf_store h d = true ->
    Forall (fun k => is_Some (dict_get d k)) keys ->
    exists h',
      update_loop keys number_input d h = (inr tt, h') /\
      ledger h' d = batch_update number_input keys (ledger h d) /\
      wf_store h' d = true.
Proof.
  induction keys as [|k keys IH]; intros h Hwf Hkeys.
  - exists h. repeat split; assumption.
  - apply Forall_cons in Hkeys as [Hk Hkeys].
    destruct (ledger_set_current h d k (number_input k) Hwf Hk)
      as (h1 & Hrun & Hl & Hwf1).
    destruct (IH h1 Hwf1 Hkeys) as (h' & Hloop & Hl' & Hwf').
    exists h'. simpl. rewrite (bind_inr _ _ _ _ _ Hrun).
    split; [exact Hloop|]. split; [|exact Hwf'].
    rewrite Hl', Hl. reflexivity.
Qed.

Lemma dict_keys_present (d : pydict) :
  NoDup (map fst d) -> Forall (fun k => is_Some (dict_get d k)) (dict_keys d).
Proof.
  intros Hnd. apply Forall_forall. intros k Hk.
  unfold dict_keys in Hk. apply list_elem_of_fmap in Hk as ([k' a] & -> & Hin).
  exists a. now apply dict_get_elem.
Qed.

(** The button changes nothing: [updated_data] is a shallow copy, so the
    loop has already written into the records of [st.session_state]. *)
Lemma commit_button_is_noop (number_input : string -> float)
    (ss : session_state) (h : heap) :
  current_input_tab number_input true ss h
  = current_input_tab number_input false ss h.
Proof.
  unfold current_input_tab, dict_copy, bind. destruct ss as [d cts]. simpl.
  destruct (update_loop (dict_keys d) number_input d h) as [[e|[]] h'];
    reflexivity.
Qed.

(** Without the button, on any well-formed store: the session keeps its
    dictionary, and its readers see the whole batch. *)
Lemma uncommitted_batch_is_visible (number_input : string -> float)
    (ss : session_state) (h : heap) :
  wf_store h (cells_data ss) = true ->
  exists h',
    current_input_tab number_input false ss h = (inr ss, h') /\
    ledger h' (cells_data ss)
    = batch_update number_input (dict_keys (cells_data ss))
                   (ledger h (cells_data ss)).
Proof.
  intros Hwf.
  pose proof Hwf as Hwf0. apply wf_store_unfold in Hwf0 as (Hnd & _ & _).
  destruct (update_loop_spec number_input (cells_data ss)
              (dict_keys (cells_data ss)) h Hwf (dict_keys_present _ Hnd))
    as (h' & Hloop & Hl & _).
  exists h'. unfold current_input_tab, dict_copy.
  rewrite (bind_inr _ _ _ _ _ Hloop). split; [reflexivity | exact Hl].
Qed.

(** C3, on the code.  The demo ledger holds two cells at current 0.0 and the
    widgets hold 2.0 and 3.0.  With the button not pressed the session keeps
    its dictionary, yet its readers see both new currents and capacities and
    Quick Stats totals them; and after the first iteration of the loop the
    session's ledger carries the new values for the first cell only. *)
Theorem uncommitted_update_reaches_readers :
  readings (ledger demo_heap demo_dict)
  = [("cell_1_lfp", 0, 0); ("cell_2_nmc", 0, 0)]%float /\
  (exists h',
     current_input_tab demo_inputs false demo_session demo_heap
     = (inr demo_session, h') /\
     readings (ledger h' (cells_data demo_session))
     = [("cell_1_lfp", 2, 6.4); ("cell_2_nmc", 3, 10.8)]%float /\
     fst (total_capacity (cells_data demo_session) h')
     = inr (6.4 + 10.8)%float) /\
  (exists h1,
     set_current (dict_copy (cells_data demo_session)) "cell_1_lfp"
                 (demo_inputs "cell_1_lfp") demo_heap = (inr tt, h1) /\
     readings (ledger h1 (cells_data demo_session))
     = [("cell_1_lfp", 2, 6.4); ("cell_2_nmc", 0, 0)]%float).
Proof.
  split; [vm_compute; reflexivity|].
  split.
  - eexists. split; [vm_compute; reflexivity|].
    split; vm_compute; reflexivity.
  - eexists. split; vm_compute; reflexivity.
Qed.

(** ** Determinism *)

(** C4, as the claim states it, fails for "Generate Cells": the temperature
    comes from the random generator, not from the input.  Two runs on the
    same single LFP cell, one drawing 25.0 and one drawing 30.0, build
    different ledgers. *)
Lemma generate_cells_depends_on_draws :
  exists ss1 h1 ss2 h2,
    generate_cells ["lfp"] (fun _ => 25%float) [] = (inr ss1, h1) /\
    generate_cells ["lfp"] (fun _ => 30%float) [] = (inr ss2, h2) /\
    ledger h1 (cells_data ss1) <> ledger h2 (cells_data ss2).
Proof.
  eexists _, _, _, _. split; [vm_compute; reflexivity|].
  split; [vm_compute; reflexivity|].
  intros H.
  apply (f_equal (map (fun kr : string * cell =>
                         PrimFloat.Leibniz.eqb (temp (snd kr)) 25))) in H.
  vm_compute in H. discriminate H.
Qed.

Lemma new_cells_same_but_temp (cts : list string) (u1 u2 : nat -> float) :
  forall idx,
    Forall2 same_but_temp (new_cells idx cts u1) (new_cells idx cts u2).
Proof.
  induction cts as [|ct cts IH]; intros idx; simpl; constructor.
  - repeat split.
  - apply IH.
Qed.

Lemma new_cells_ext (cts : list string) (u1 u2 : nat -> float) :
  forall idx,
    (forall i, (idx <= i < idx + length cts)%nat -> u1 i = u2 i) ->
    new_cells idx cts u1 = new_cells idx cts u2.
Proof.
  induction cts as [|ct cts IH]; intros idx Hu; simpl; [reflexivity|].
  rewrite (Hu idx) by (simpl; lia). f_equal.
  apply IH. intros i Hi. apply Hu. simpl. lia.
Qed.

Lemma dict_get_is_Some (d : pydict) (k : string) :
  is_Some (dict_get d k) <-> k ∈ dict_keys d.
Proof.
  unfold dict_keys. destruct (dict_get d k) as [a|] eqn:Hget.
  - split; [intros _ | eauto].
    apply dict_get_Some_elem in Hget.
    apply (list_elem_of_fmap_2 fst) in Hget. exact Hget.
  - split; [intros [? [=]]|]. intros Hin.
    apply dict_get_None_notin in Hget. contradiction.
Qed.

(** C4, amended.  Two runs of "Generate Cells" on the same cell types build
    ledgers that agree on the identifiers and on every field except the
    temperature, and that are equal when the draws are equal.  Every other
    operation depends on the ledger alone: on two well-formed stores that
    show the same ledger, [set_current] has the same outcome and leaves the
    same ledger, and the queries return the same results. *)
Theorem operations_deterministic_up_to_draws
    (cts : list string) (u1 u2 : nat -> float)
    (h1 h2 : heap) (d1 d2 : pydict) (k : string) (c : float) :
  wf_store h1 d1 = true ->
  wf_store h2 d2 = true ->
  ledger h1 d1 = ledger h2 d2 ->
  (exists ss1 h1' ss2 h2',
     generate_cells cts u1 h1 = (inr ss1, h1') /\
     generate_cells cts u2 h2 = (inr ss2, h2') /\
     Forall2 same_but_temp (ledger h1' (cells_data ss1))
                           (ledger h2' (cells_data ss2)) /\
     ((forall i, (1 <= i <= length cts)%nat -> u1 i = u2 i) ->
      ledger h1' (cells_data ss1) = ledger h2' (cells_data ss2))) /\
  (fst (set_current d1 k c h1) = fst (set_current d2 k c h2) /\
   ledger (snd (set_current d1 k c h1)) d1
   = ledger (snd (set_current d2 k c h2)) d2) /\
  fst (total_capacity d1 h1) = fst (total_capacity d2 h2) /\
  fst (avg_temp d1 h1) = fst (avg_temp d2 h2) /\
  fst (total_current d1 h1) = fst (total_current d2 h2) /\
  fst (quick_stats_panel d1 h1) = fst (quick_stats_panel d2 h2).
Proof.
  intros Hwf1 Hwf2 Hl.
  split.
  { destruct (generate_cells_spec cts u1 h1) as (ss1 & h1' & R1 & _ & L1).
    destruct (generate_cells_spec cts u2 h2) as (ss2 & h2' & R2 & _ & L2).
    exists ss1, h1', ss2, h2'. rewrite L1, L2.
    split; [exact R1|]. split; [exact R2|].
    split; [apply new_cells_same_but_temp|].
    intros Hu. apply new_cells_ext. intros i Hi. apply Hu. lia. }
  assert (Hkeys : dict_keys d1 = dict_keys d2).
  { rewrite <- (keys_ledger_wf _ _ Hwf1), <- (keys_ledger_wf _ _ Hwf2).
    now rewrite Hl. }
  assert (Hlen : length d1 = length d2).
  { rewrite <- (length_ledger_wf _ _ Hwf1), <- (length_ledger_wf _ _ Hwf2).
    now rewrite Hl. }
  split.
  { destruct (dict_get d1 k) as [a1|] eqn:G1.
    - assert (S1 : is_Some (dict_get d1 k)) by eauto.
      assert (S2 : is_Some (dict_get d2 k)).
      { apply dict_get_is_Some. rewrite <- Hkeys.
        now apply dict_get_is_Some. }
      destruct (ledger_set_current h1 d1 k c Hwf1 S1) as (h1' & R1 & L1 & _).
      destruct (ledger_set_current h2 d2 k c Hwf2 S2) as (h2' & R2 & L2 & _).
      rewrite R1, R2. simpl. now rewrite L1, L2, Hl.
    - assert (G2 : dict_get d2 k = None).
      { destruct (dict_get d2 k) as [a2|] eqn:G2; [|reflexivity].
        assert (S2 : is_Some (dict_get d2 k)) by eauto.
        apply dict_get_is_Some in S2. rewrite <- Hkeys in S2.
        apply dict_get_is_Some in S2. rewrite G1 in S2.
        now destruct S2. }
      rewrite (set_current_missing h1 d1 k c G1).
      rewrite (set_current_missing h2 d2 k c G2). simpl. now split. }
  rewrite (total_capacity_wf h1 d1 Hwf1), (total_capacity_wf h2 d2 Hwf2).
  rewrite (avg_temp_wf h1 d1 Hwf1), (avg_temp_wf h2 d2 Hwf2).
  rewrite (total_current_wf h1 d1 Hwf1), (total_current_wf h2 d2 Hwf2).
  rewrite (quick_stats_panel_wf h1 d1 Hwf1), (quick_stats_panel_wf h2 d2 Hwf2).
  rewrite Hl. repeat split.
Qed.

Lemma operations_deterministic_up_to_draws_witness :
  (exists ss1 h1' ss2 h2',
     generate_cells ["lfp"; "nmc"] (fun _ => 25%float) demo_heap
     = (inr ss1, h1') /\
     generate_cells ["lfp"; "nmc"] (fun _ => 30%float) demo_heap_shifted
     = (inr ss2, h2') /\
     Forall2 same_but_temp (ledger h1' (cells_data ss1))
                           (ledger h2' (cells_data ss2)) /\
     ((forall i, (1 <= i <= 2)%nat -> 25%float = 30%float) ->
      ledger h1' (cells_data ss1) = ledger h2' (cells_data ss2))) /\
  (fst (set_current demo_dict "cell_2_nmc" 4.5 demo_heap)
   = fst (set_current demo_dict_shifted "cell_2_nmc" 4.5 demo_heap_shifted) /\
   ledger (snd (set_current demo_dict "cell_2_nmc" 4.5 demo_heap)) demo_dict
   = ledger (snd (set_current demo_dict_shifted "cell_2_nmc" 4.5
                              demo_heap_shifted)) demo_dict_shifted) /\
  fst (total_capacity demo_dict demo_heap)
  = fst (total_capacity demo_dict_shifted demo_heap_shifted) /\
  fst (avg_temp demo_dict demo_heap)
  = fst (avg_temp demo_dict_shifted demo_heap_shifted) /\
  fst (total_current demo_dict demo_heap)
  = fst (total_current demo_dict_shifted demo_heap_shifted) /\
  fst (quick_stats_panel demo_dict demo_heap)
  = fst (quick_stats_panel demo_dict_shifted demo_heap_shifted).
Proof.
  apply (operations_deterministic_up_to_draws
           ["lfp"; "nmc"] (fun _ => 25%float) (fun _ => 30%float)
           demo_heap demo_heap_shifted demo_dict demo_dict_shifted
           "cell_2_nmc" 4.5).
  - vm_compute. reflexivity.
  - vm_compute. reflexivity.
  - vm_compute. reflexivity.
Defined.

(** * Further properties of the script *)

(** ** The store that "Generate Cells" builds *)

Lemma new_cells_keys_from (cts : list string) (uniform : nat -> float) :
  forall idx k,
    k ∈ map fst (new_cells idx cts uniform) ->
    exists j c, (idx <= j)%nat /\ k = cell_key_of j c.
Proof.
  induction cts as [|ct cts IH]; intros idx k Hk; simpl in Hk.
  - now apply elem_of_nil in Hk.
  - apply elem_of_cons in Hk as [->|Hk].
    + exists idx, ct. split; [lia | reflexivity].
    + destruct (IH _ _ Hk) as (j & c & Hj & ->).
      exists j, c. split; [lia | reflexivity].
Qed.

Lemma new_cells_keys_NoDup (cts : list string) (uniform : nat -> float) :
  forall idx, NoDup (map fst (new_cells idx cts uniform)).
Proof.
  induction cts as [|ct cts IH]; intros idx; simpl; constructor.
  - intros Hin. apply new_cells_keys_from in Hin as (j & c & Hj & E).
    apply cell_key_of_inj in E. lia.
  - apply IH.
Qed.

Lemma generate_cells_store_wf
    (cts : list string) (uniform : nat -> float) (h : heap) :
  exists ss h',
    generate_cells cts uniform h = (inr ss, h') /\
    wf_store h' (cells_data ss) = true.
Proof.
  unfold generate_cells.
  rewrite (bind_inr _ _ _ _ _
             (generate_loop_spec cts 1 uniform [] h (fun _ _ _ => eq_refl))).
  eexists _, _. split; [reflexivity|].
  cbn [cells_data app].
  assert (Hlen : length (map fst (new_cells 1 cts uniform))
                 = length (seq (length h) (length cts))).
  { now rewrite length_map, length_new_cells, length_seq. }
  apply wf_store_unfold. split; [|split].
  - change (map fst ?l) with (l.*1). rewrite fst_zip by lia.
    apply new_cells_keys_NoDup.
  - change (map snd ?l) with (l.*2). rewrite snd_zip by lia.
    apply NoDup_seq.
  - apply Forall_forall. intros [k a] Hin. simpl.
    apply elem_of_zip_r in Hin. apply elem_of_seq in Hin.
    rewrite length_app, length_map, length_new_cells. lia.
Qed.

(** In a well-formed store, looking a key up and finding its entry in the
    ledger are the same thing. *)
Lemma lookup_cell_ledger (h : heap) (d : pydict) (k : string) (r : cell) :
  wf_store h d = true ->
  (lookup_cell h d k = Some r <-> (k, r) ∈ ledger h d).
Proof.
  intros Hwf. apply wf_store_unfold in Hwf as (Hkeys & _ & _).
  unfold ledger, lookup_cell. rewrite list_elem_of_omap. split.
  - destruct (dict_get d k) as [a|] eqn:Hget; simpl; [|discriminate].
    intros Hr. exists (k, a). split; [now apply dict_get_Some_elem|].
    simpl. now rewrite Hr.
  - intros ([k' a] & Hin & Hf). simpl in Hf.
    destruct (h !! a) as [r'|] eqn:Hr; simpl in Hf; [|discriminate].
    injection Hf as -> ->.
    rewrite (dict_get_elem d k a Hkeys Hin). simpl. exact Hr.
Qed.

Lemma elem_of_new_cells (cts : list string) (uniform : nat -> float)
    (k : string) (r : cell) :
  (k, r) ∈ new_cells 1 cts uniform <->
  exists i ct, cts !! i = Some ct /\ k = cell_key_of (S i) ct /\
               r = new_cell ct (uniform (S i)).
Proof.
  rewrite list_elem_of_lookup. split.
  - intros [i Hi]. rewrite lookup_new_cells in Hi.
    destruct (cts !! i) as [ct|] eqn:Hct; simpl in Hi; [|discriminate].
    injection Hi as <- <-. exists i, ct. auto.
  - intros (i & ct & Hct & -> & ->). exists i.
    rewrite lookup_new_cells, Hct. reflexivity.
Qed.

(** X2. After "Generate Cells" on cell types of ASCII text (such as the
    script's own "lfp" and "nmc"), an identifier is in the ledger exactly
    when it is the identifier of some position of the input, and then it is
    bound to the record built for that position; every other identifier is
    absent. *)
Theorem generate_cells_lookup
    (cts : list string) (uniform : nat -> float) (h : heap) :
  Forall (fun ct => ascii_text ct = true) cts ->
  exists ss h',
    generate_cells cts uniform h = (inr ss, h') /\
    forall k r,
      lookup_cell h' (cells_data ss) k = Some r <->
      exists i ct, cts !! i = Some ct /\ k = cell_key_of (S i) ct /\
                   r = new_cell ct (uniform (S i)).
Proof.
  intros _.
  destruct (generate_cells_store_wf cts uniform h) as (ss & h' & Hrun & Hwf).
  destruct (generate_cells_spec cts uniform h) as (ss0 & h0 & Hrun0 & _ & Hl).
  rewrite Hrun in Hrun0. injection Hrun0 as <- <-.
  exists ss, h'. split; [exact Hrun|]. intros k r.
  rewrite (lookup_cell_ledger _ _ _ _ Hwf), Hl.
  apply elem_of_new_cells.
Qed.

Lemma generate_cells_lookup_witness :
  exists ss h',
    generate_cells ["lfp"; "nmc"] (fun _ => 30.04%float) [] = (inr ss, h') /\
    forall k r,
      lookup_cell h' (cells_data ss) k = Some r <->
      exists i ct, ["lfp"; "nmc"] !! i = Some ct /\ k = cell_key_of (S i) ct /\
                   r = new_cell ct 30.04.
Proof.
  apply (generate_cells_lookup ["lfp"; "nmc"] (fun _ => 30.04%float) []).
  repeat (constructor; [reflexivity|]). constructor.
Defined.

Lemma sum_of_zero (f : cell -> float) (l : list (string * cell)) :
  Forall (fun kr => f (snd kr) = 0%float) l -> sum_of f l = 0%float.
Proof.
  unfold sum_of. induction 1 as [|kr l Hx _ IH]; simpl; [reflexivity|].
  rewrite Hx. exact IH.
Qed.

Lemma new_cell_starts_at_zero (ct : string) (u : float) :
  current (new_cell ct u) = 0%float /\ capacity (new_cell ct u) = 0%float.
Proof.
  unfold new_cell. destruct (String.eqb ct "lfp"); split; reflexivity.
Qed.

(** ** How updates of currents compose *)

Lemma with_current_twice (r : cell) (c1 c2 : float) :
  with_current (with_current r c1) c2 = with_current r c2.
Proof. reflexivity. Qed.

(** X4. Two updates of one cell in a row leave what the second alone leaves,
    also when they fail: the last value wins. *)
Theorem set_current_last_wins
    (h : heap) (d : pydict) (k : string) (c1 c2 : float) :
  (set_current d k c1 ;;; set_current d k c2) h = set_current d k c2 h.
Proof.
  destruct (dict_get d k) as [a|] eqn:Hget.
  - destruct (h !! a) as [r|] eqn:Hr.
    + rewrite (bind_inr _ _ _ _ _ (set_current_ok h d k a r c1 Hget Hr)).
      assert (Hlt : (a < length h)%nat) by (eapply lookup_lt_Some; eauto).
      rewrite (set_current_ok _ d k a (with_current r c1) c2 Hget
                 (list_lookup_insert_eq _ _ _ Hlt)).
      rewrite (set_current_ok h d k a r c2 Hget Hr).
      now rewrite list_insert_insert_eq, with_current_twice.
    + rewrite (bind_inl _ _ _ _ _ (set_current_dangling h d k a c1 Hget Hr)).
      now rewrite (set_current_dangling h d k a c2 Hget Hr).
  - rewrite (bind_inl _ _ _ _ _ (set_current_missing h d k c1 Hget)).
    now rewrite (set_current_missing h d k c2 Hget).
Qed.

(** X5. Updates of two different cells of a well-formed store can be made in
    either order: the heap they leave is the same. *)
Theorem set_current_commute
    (h : heap) (d : pydict) (k1 k2 : string) (c1 c2 : float) :
  wf_store h d = true ->
  k1 <> k2 ->
  is_Some (dict_get d k1) ->
  is_Some (dict_get d k2) ->
  (set_current d k1 c1 ;;; set_current d k2 c2) h
  = (set_current d k2 c2 ;;; set_current d k1 c1) h.
Proof.
  intros Hwf Hne [a1 G1] [a2 G2].
  destruct (wf_store_live h d k1 a1 Hwf G1) as [r1 R1].
  destruct (wf_store_live h d k2 a2 Hwf G2) as [r2 R2].
  apply wf_store_unfold in Hwf as (_ & Haddrs & _).
  assert (Ha : a1 <> a2).
  { intros ->. apply Hne. eapply dict_get_addr_inj; eauto. }
  rewrite (bind_inr _ _ _ _ _ (set_current_ok h d k1 a1 r1 c1 G1 R1)).
  rewrite (bind_inr _ _ _ _ _ (set_current_ok h d k2 a2 r2 c2 G2 R2)).
  rewrite (set_current_ok _ d k2 a2 r2 c2 G2)
    by (rewrite list_lookup_insert_ne by exact Ha; exact R2).
  rewrite (set_current_ok _ d k1 a1 r1 c1 G1)
    by (rewrite list_lookup_insert_ne by congruence; exact R1).
  f_equal. apply list_insert_insert_ne. congruence.
Qed.

Lemma set_current_commute_witness :
  (set_current demo_dict "cell_1_lfp" 2 ;;;
   set_current demo_dict "cell_2_nmc" 3) demo_heap
  = (set_current demo_dict "cell_2_nmc" 3 ;;;
     set_current demo_dict "cell_1_lfp" 2) demo_heap.
Proof.
  apply (set_current_commute demo_heap demo_dict "cell_1_lfp" "cell_2_nmc").
  - vm_compute. reflexivity.
  - discriminate.
  - vm_compute. eauto.
  - vm_compute. eauto.
Defined.

(** ** The whole update loop *)

Lemma batch_update_closed (number_input : string -> float)
    (keys : list string) :
  forall l,
    batch_update number_input keys l
    = map (fun kr => if bool_decide (fst kr ∈ keys)
                     then with_input number_input kr else kr) l.
Proof.
  induction keys as [|k keys IH]; intros l.
  - simpl. rewrite <- (map_id l) at 1. apply map_ext. intros kr.
    reflexivity.
  - unfold batch_update in *. simpl. rewrite IH. unfold ledger_update.
    rewrite map_map. apply map_ext. intros [k' r]. simpl.
    destruct (String.eqb_spec k k') as [<-|Hne]; simpl.
    + rewrite (bool_decide_eq_true_2 (k ∈ k :: keys))
        by apply list_elem_of_here.
      destruct (bool_decide (k ∈ keys)); reflexivity.
    + destruct (decide (k' ∈ keys)) as [Hin|Hnin].
      * rewrite !bool_decide_eq_true_2;
          [reflexivity | now apply list_elem_of_further | exact Hin].
      * rewrite !bool_decide_eq_false_2; [reflexivity | | exact Hnin].
        rewrite not_elem_of_cons. split; [congruence | exact Hnin].
Qed.

Lemma batch_update_all (number_input : string -> float)
    (l : list (string * cell)) :
  batch_update number_input (map fst l) l = map (with_input number_input) l.
Proof.
  rewrite batch_update_closed. apply map_ext_in. intros kr Hin.
  rewrite bool_decide_eq_true_2; [reflexivity|].
  apply list_elem_of_In in Hin. now apply (list_elem_of_fmap_2 fst).
Qed.

Lemma current_input_tab_spec
    (number_input : string -> float) (button : bool)
    (ss : session_state) (h : heap) :
  wf_store h (cells_data ss) = true ->
  exists h',
    current_input_tab number_input button ss h = (inr ss, h') /\
    ledger h' (cells_data ss)
    = map (with_input number_input) (ledger h (cells_data ss)) /\
    wf_store h' (cells_data ss) = true.
Proof.
  intros Hwf.
  pose proof Hwf as Hwf0. apply wf_store_unfold in Hwf0 as (Hnd & _ & _).
  destruct (update_loop_spec number_input (cells_data ss)
              (dict_keys (cells_data ss)) h Hwf (dict_keys_present _ Hnd))
    as (h' & Hloop & Hl & Hwf').
  exists h'. split; [|split; [|exact Hwf']].
  - unfold current_input_tab, dict_copy.
    rewrite (bind_inr _ _ _ _ _ Hloop).
    destruct ss as [d cts], button; reflexivity.
  - rewrite Hl, <- (keys_ledger_wf _ _ Hwf). apply batch_update_all.
Qed.

(** A loop over cells that already carry their inputs changes nothing. *)
Lemma update_loop_settled (number_input : string -> float) (d : pydict)
    (h : heap) (keys : list string) :
  Forall (fun k => exists r, lookup_cell h d k = Some r /\
                             with_current r (number_input k) = r) keys ->
  update_loop keys number_input d h = (inr tt, h).
Proof.
  induction 1 as [|k keys (r & Hk & Hr) _ IH]; [reflexivity|].
  unfold lookup_cell in Hk.
  destruct (dict_get d k) as [a|] eqn:Hget; simpl in Hk; [|discriminate].
  simpl.
  rewrite (bind_inr _ _ _ _ _
             (set_current_ok h d k a r (number_input k) Hget Hk)).
  rewrite Hr, (list_insert_id _ _ _ Hk). exact IH.
Qed.

Lemma current_input_tab_again
    (number_input : string -> float) (b1 b2 : bool)
    (ss : session_state) (h : heap) :
  wf_store h (cells_data ss) = true ->
  exists h',
    current_input_tab number_input b1 ss h = (inr ss, h') /\
    current_input_tab number_input b2 ss h' = (inr ss, h').
Proof.
  intros Hwf.
  destruct (current_input_tab_spec number_input b1 ss h Hwf)
    as (h' & Hrun & Hl & Hwf').
  exists h'. split; [exact Hrun|].
  assert (Hset : Forall (fun k => exists r,
                          lookup_cell h' (cells_data ss) k = Some r /\
                          with_current r (number_input k) = r)
                        (dict_keys (cells_data ss))).
  { apply Forall_forall. intros k Hk.
    apply dict_get_is_Some in Hk as [a Hget].
    destruct (wf_store_live _ _ _ _ Hwf' Hget) as [r' Hr'].
    exists r'. split; [unfold lookup_cell; now rewrite Hget|].
    assert (Hin : (k, r') ∈ ledger h' (cells_data ss)).
    { apply lookup_cell_ledger; [exact Hwf'|].
      unfold lookup_cell. now rewrite Hget. }
    rewrite Hl in Hin. apply list_elem_of_fmap in Hin as ([k0 r0] & E & _).
    unfold with_input in E. simpl in E. injection E as -> ->.
    apply with_current_twice. }
  unfold current_input_tab, dict_copy.
  rewrite (bind_inr _ _ _ _ _ (update_loop_settled number_input
             (cells_data ss) h' (dict_keys (cells_data ss)) Hset)).
  destruct ss as [d cts], b2; reflexivity.
Qed.

(** ** A run of the script *)

(** On a non-empty well-formed store Quick Stats returns its panel. *)
Lemma quick_stats_panel_nonempty (h : heap) (d : pydict) :
  wf_store h d = true -> d <> [] ->
  exists qs, quick_stats_panel d h = (inr qs, h) /\
             panel_of (ledger h d) = inr qs.
Proof.
  intros Hwf Hne. rewrite (quick_stats_panel_wf h d Hwf).
  unfold panel_of. rewrite (length_ledger_wf h d Hwf).
  destruct d as [|ka d]; [contradiction|].
  destruct (Z.eqb_spec (Z.of_nat (length (ka :: d))) 0) as [E|_];
    [simpl in E; lia|].
  eexists. split; reflexivity.
Qed.

Lemma script_pass_interaction (inp : run_inputs) (ss : session_state)
    (h : heap) :
  script_pass Interaction inp ss h =
  if decide (cells_data ss = []) then (inr (ss, false, None), h)
  else (ss2 <- current_input_tab (in_number_input inp) false ss ;;
        qs <- quick_stats_panel (cells_data ss2) ;;
        ret (ss2, false, Some qs)) h.
Proof.
  unfold script_pass, sidebar, bind, ret.
  destruct (cells_data ss); [reflexivity|].
  now rewrite decide_False by discriminate.
Qed.

Lemma script_pass_update (inp : run_inputs) (ss : session_state) (h : heap) :
  script_pass ClickUpdate inp ss h =
  if decide (cells_data ss = []) then (inr (ss, false, None), h)
  else (ss2 <- current_input_tab (in_number_input inp) true ss ;;
        ret (ss2, true, None)) h.
Proof.
  unfold script_pass, sidebar, bind, ret.
  destruct (cells_data ss); [reflexivity|].
  now rewrite decide_False by discriminate.
Qed.

Lemma script_pass_generate (inp : run_inputs) (ss : session_state) (h : heap) :
  script_pass ClickGenerate inp ss h =
  (ss1 <- generate_cells (sidebar_cell_types (in_choices inp))
                         (in_uniform inp) ;;
   script_pass Interaction inp ss1) h.
Proof.
  unfold script_pass, sidebar, bind, ret.
  destruct (generate_cells _ _ h) as [[e|ss1] h1]; reflexivity.
Qed.

(** A pass over a non-empty ledger in which no button is pressed. *)
Lemma script_pass_interaction_nonempty (inp : run_inputs)
    (ss : session_state) (h : heap) :
  wf_store h (cells_data ss) = true ->
  cells_data ss <> [] ->
  exists h' qs,
    current_input_tab (in_number_input inp) false ss h = (inr ss, h') /\
    script_pass Interaction inp ss h = (inr (ss, false, Some qs), h') /\
    panel_of (ledger h' (cells_data ss)) = inr qs.
Proof.
  intros Hwf Hd.
  destruct (current_input_tab_spec (in_number_input inp) false ss h Hwf)
    as (h' & Htab & _ & Hwf').
  destruct (quick_stats_panel_nonempty h' (cells_data ss) Hwf' Hd)
    as (qs & Hqs & Hp).
  exists h', qs. split; [exact Htab|]. split; [|exact Hp].
  rewrite script_pass_interaction, decide_False by exact Hd.
  rewrite (bind_inr _ _ _ _ _ Htab).
  now rewrite (bind_inr _ _ _ _ _ Hqs).
Qed.

Lemma script_run_update_as_interaction
    (inp : run_inputs) (ss : session_state) (h : heap) :
  wf_store h (cells_data ss) = true ->
  script_run ClickUpdate inp ss h = script_run Interaction inp ss h.
Proof.
  intros Hwf. unfold script_run.
  destruct (decide (cells_data ss = [])) as [Hd|Hd].
  - rewrite (bind_inr _ _ h h (ss, false, None))
      by (rewrite script_pass_update; now rewrite decide_True).
    rewrite (bind_inr _ _ h h (ss, false, None))
      by (rewrite script_pass_interaction; now rewrite decide_True).
    reflexivity.
  - destruct (script_pass_interaction_nonempty inp ss h Hwf Hd)
      as (h1 & qs & Htab & Hpass & Hp).
    destruct (current_input_tab_spec (in_number_input inp) false ss h Hwf)
      as (h3 & Htab3 & _ & Hwf1).
    rewrite Htab in Htab3. injection Htab3 as <-.
    destruct (script_pass_interaction_nonempty inp ss h1 Hwf1 Hd)
      as (h2 & qs2 & Htab2 & Hpass2 & Hp2).
    destruct (current_input_tab_again (in_number_input inp) false false
                ss h Hwf) as (h4 & Htab4 & Htab5).
    rewrite Htab in Htab4. injection Htab4 as <-.
    rewrite Htab2 in Htab5. injection Htab5 as ->.
    rewrite Hp in Hp2. injection Hp2 as <-.
    rewrite (bind_inr _ _ h h1 (ss, true, None)); cycle 1.
    { rewrite script_pass_update, decide_False by exact Hd.
      rewrite <- commit_button_is_noop in Htab.
      now rewrite (bind_inr _ _ _ _ _ Htab). }
    cbn [fst snd].
    rewrite (bind_inr _ _ _ _ _ Hpass2).
    rewrite (bind_inr _ _ _ _ _ Hpass). reflexivity.
Qed.

Lemma bind_assoc {A B C} (m : M A) (f : A -> M B) (g : B -> M C) (h : heap) :
  bind (bind m f) g h = bind m (fun x => bind (f x) g) h.
Proof. unfold bind. destruct (m h) as [[e|x] h1]; reflexivity. Qed.

Lemma script_run_generate (inp : run_inputs) (ss : session_state) (h : heap) :
  script_run ClickGenerate inp ss h =
  (ss1 <- generate_cells (sidebar_cell_types (in_choices inp))
                         (in_uniform inp) ;;
   script_run Interaction inp ss1) h.
Proof.
  unfold script_run at 1. unfold bind at 1.
  rewrite script_pass_generate. unfold bind at 1 3.
  destruct (generate_cells _ _ h) as [[e|ss1] h1]; reflexivity.
Qed.

(** A run without a click on "Generate Cells", seen from outside. *)
Lemma script_run_interaction_spec (inp : run_inputs) (ss : session_state)
    (h : heap) :
  wf_store h (cells_data ss) = true ->
  exists out h',
    script_run Interaction inp ss h = (inr (ss, out), h') /\
    wf_store h' (cells_data ss) = true /\
    ledger h' (cells_data ss)
    = map (with_input (in_number_input inp)) (ledger h (cells_data ss)) /\
    (out = None <-> cells_data ss = []).
Proof.
  intros Hwf. unfold script_run.
  destruct (decide (cells_data ss = [])) as [Hd|Hd].
  - exists None, h.
    rewrite (bind_inr _ _ h h (ss, false, None))
      by (rewrite script_pass_interaction; now rewrite decide_True).
    split; [reflexivity|]. split; [exact Hwf|].
    split; [now rewrite Hd | tauto].
  - destruct (script_pass_interaction_nonempty inp ss h Hwf Hd)
      as (h1 & qs & Htab & Hpass & _).
    destruct (current_input_tab_spec (in_number_input inp) false ss h Hwf)
      as (h3 & Htab3 & Hl & Hwf1).
    rewrite Htab in Htab3. injection Htab3 as <-.
    exists (Some qs), h1. rewrite (bind_inr _ _ _ _ _ Hpass).
    split; [reflexivity|]. split; [exact Hwf1|]. split; [exact Hl|].
    split; [discriminate | contradiction].
Qed.

(** ** What every reachable ledger satisfies *)

Lemma cell_ok_with_current (r : cell) (c : float) :
  cell_ok r -> valid_current c = true -> cell_ok (with_current r c).
Proof.
  intros (_ & _ & Hchem & Htemp) Hc.
  split; [reflexivity|]. split; [exact Hc|]. split; assumption.
Qed.

Lemma cell_ok_new_cell (c : string) (u : float) :
  c = "LFP" \/ c = "NMC" ->
  (25 <=? u)%float = true -> (u <=? 40)%float = true ->
  cell_ok (new_cell (PyStr.lower c) u).
Proof.
  intros Hc Hlo Hhi.
  destruct (round_draw_one_decimal u Hlo Hhi) as (_ & _ & Hn).
  split; [reflexivity|]. split; [reflexivity|].
  split; [|exact Hn].
  destruct Hc as [->| ->]; [left | right]; repeat split.
Qed.

Lemma generate_cells_ok (inp : run_inputs) (h : heap) :
  valid_inputs inp ->
  exists ss h',
    generate_cells (sidebar_cell_types (in_choices inp)) (in_uniform inp) h
    = (inr ss, h') /\
    ledger_ok h' ss.
Proof.
  intros (_ & Hchem & Hdraw & _).
  destruct (generate_cells_store_wf (sidebar_cell_types (in_choices inp))
              (in_uniform inp) h) as (ss & h' & Hrun & Hwf).
  destruct (generate_cells_spec (sidebar_cell_types (in_choices inp))
              (in_uniform inp) h) as (ss0 & h0 & Hrun0 & _ & Hl).
  rewrite Hrun in Hrun0. injection Hrun0 as <- <-.
  exists ss, h'. split; [exact Hrun|]. split; [exact Hwf|].
  rewrite Hl. apply Forall_forall. intros [k r] Hin. simpl.
  apply elem_of_new_cells in Hin as (i & ct & Hct & _ & ->).
  unfold sidebar_cell_types in Hct. rewrite list_lookup_fmap in Hct.
  destruct (in_choices inp !! i) as [c|] eqn:Hc; simpl in Hct; [|discriminate].
  injection Hct as <-.
  rewrite Forall_forall in Hchem.
  destruct (Hdraw (S i)) as [Hlo Hhi].
  apply cell_ok_new_cell; [|exact Hlo|exact Hhi].
  apply Hchem. eapply list_elem_of_lookup_2; eauto.
Qed.

Lemma script_run_interaction_ok (inp : run_inputs) (ss ss' : session_state)
    (h h' : heap) (out : option quick_stats) :
  ledger_ok h ss ->
  (forall k, valid_current (in_number_input inp k) = true) ->
  script_run Interaction inp ss h = (inr (ss', out), h') ->
  ledger_ok h' ss'.
Proof.
  intros [Hwf Hok] Hni Hrun.
  destruct (script_run_interaction_spec inp ss h Hwf)
    as (out0 & h0 & Hrun0 & Hwf0 & Hl & _).
  rewrite Hrun in Hrun0. injection Hrun0 as -> -> ->.
  split; [exact Hwf0|]. rewrite Hl.
  apply Forall_forall. intros kr Hin.
  apply list_elem_of_fmap in Hin as ([k r] & -> & Hin).
  rewrite Forall_forall in Hok. simpl.
  apply cell_ok_with_current; [exact (Hok _ Hin) | apply Hni].
Qed.

(** X10. The data model as an invariant of the script: in every state that runs
    with valid widget values can reach, the store is well formed and every
    record has [capacity = round(voltage * current, 2)], a current within
    [0.0, 10.0], the chemistry LFP or NMC with the three voltages of that
    chemistry, and a one-decimal temperature between 25.0 and 40.0. *)
Theorem reachable_ledger_ok (h : heap) (ss : session_state) :
  reachable h ss -> ledger_ok h ss.
Proof.
  intros Hreach.
  induction Hreach as [|h0 h1 ss0 ss1 ev inp out _ IH Hinp Hrun].
  - split; [reflexivity | constructor].
  - pose proof Hinp as (_ & _ & _ & Hni).
    destruct ev.
    + eapply script_run_interaction_ok; eauto.
    + rewrite script_run_generate in Hrun.
      destruct (generate_cells_ok inp h0 Hinp) as (ss2 & h2 & Hgen & Hok2).
      rewrite (bind_inr _ _ _ _ _ Hgen) in Hrun.
      eapply script_run_interaction_ok; eauto.
    + rewrite (script_run_update_as_interaction inp ss0 h0 (proj1 IH))
        in Hrun.
      eapply script_run_interaction_ok; eauto.
Qed.

Lemma demo_run_inputs_valid : valid_inputs demo_run_inputs.
Proof.
  split; [simpl; lia|]. split; [repeat (constructor; [auto|]); constructor|].
  split; [intros i; split; vm_compute; reflexivity|].
  intros k. unfold demo_run_inputs, demo_inputs, in_number_input.
  destruct (String.eqb k "cell_1_lfp"); vm_compute; reflexivity.
Qed.

Lemma reachable_ledger_ok_witness :
  exists h ss,
    script_run ClickGenerate demo_run_inputs (Session [] []) []
    = (inr (ss, Some (QuickStats (6.4 + 10.8) 30 5 1 1)), h) /\
    ledger_ok h ss.
Proof.
  eexists _, _. split; [vm_compute; reflexivity|].
  apply reachable_ledger_ok.
  eapply (reach_run [] _ (Session [] []) _ ClickGenerate demo_run_inputs).
  - apply reach_init.
  - apply demo_run_inputs_valid.
  - vm_compute. reflexivity.
Defined.

(** ** Display labels *)

Lemma map_chars_app (f : ascii -> ascii) (s1 s2 : string) :
  PyStr.map_chars f (s1 ++ s2)
  = (PyStr.map_chars f s1 ++ PyStr.map_chars f s2)%string.
Proof. induction s1 as [|c s1 IH]; simpl; [reflexivity | now rewrite IH]. Qed.

Lemma replace_underscore_digits (d : Decimal.uint) :
  PyText.replace_underscore (NilEmpty.string_of_uint d)
  = NilEmpty.string_of_uint d.
Proof.
  unfold PyText.replace_underscore.
  induction d; simpl; try reflexivity; now rewrite IHd.
Qed.

Lemma title_from_digits (d : Decimal.uint) (rest : string) :
  PyText.title_from false (NilEmpty.string_of_uint d ++ rest)
  = (NilEmpty.string_of_uint d ++ PyText.title_from false rest)%string.
Proof.
  induction d; simpl; try reflexivity;
    match goal with
    | |- String (PyStr.upper_char ?c)
                (PyText.title_from (PyText.is_cased ?c) ?x) = _ =>
        change (PyStr.upper_char c) with c;
        change (PyText.is_cased c) with false
    end; rewrite IHd; reflexivity.
Qed.

(** The name a cell is shown under: "Cell", its index, and its cell type
    with underscores replaced and title-cased. *)
Lemma label_of_cell_key (idx : nat) (cell_type : string) :
  label_of (cell_key_of idx cell_type)
  = ("Cell " ++ PyStr.of_nat idx ++ " "
       ++ PyText.title (PyText.replace_underscore cell_type))%string.
Proof.
  unfold label_of, cell_key_of, PyStr.of_nat, PyText.title.
  unfold PyText.replace_underscore at 1.
  rewrite !map_chars_app.
  fold (PyText.replace_underscore (NilEmpty.string_of_uint (Nat.to_uint idx))).
  fold (PyText.replace_underscore cell_type).
  rewrite replace_underscore_digits.
  change (PyStr.map_chars _ "cell_") with "cell "%string.
  change (PyStr.map_chars _ "_") with " "%string.
  change (PyText.title_from false ("cell " ++ ?s))
    with ("Cell " ++ PyText.title_from false s)%string.
  rewrite title_from_digits. reflexivity.
Qed.

Lemma digits_before_space (d1 d2 : Decimal.uint) (t1 t2 : string) :
  (NilEmpty.string_of_uint d1 ++ String " " t1 =
   NilEmpty.string_of_uint d2 ++ String " " t2)%string ->
  d1 = d2.
Proof.
  revert d2; induction d1; intros d2; destruct d2; simpl; intros H;
    try discriminate H; try reflexivity;
    injection H as H; f_equal; apply IHd1, H.
Qed.

Lemma label_of_index_inj (i j : nat) (c1 c2 : string) :
  label_of (cell_key_of i c1) = label_of (cell_key_of j c2) -> i = j.
Proof.
  rewrite !label_of_cell_key. unfold PyStr.of_nat. simpl. intros H.
  injection H as H.
  apply digits_before_space in H.
  apply Unsigned.to_uint_inj, H.
Qed.

(** X11. Labels identify cells: in the ledger that "Generate Cells" builds
    for cell types of ASCII text (such as the script's own "lfp" and "nmc"),
    two identifiers with the same label are the same identifier. *)
Theorem generated_labels_distinct
    (cts : list string) (uniform : nat -> float) (h : heap) :
  Forall (fun ct => ascii_text ct = true) cts ->
  exists ss h',
    generate_cells cts uniform h = (inr ss, h') /\
    forall k1 k2,
      k1 ∈ dict_keys (cells_data ss) -> k2 ∈ dict_keys (cells_data ss) ->
      label_of k1 = label_of k2 -> k1 = k2.
Proof.
  intros _.
  destruct (generate_cells_store_wf cts uniform h) as (ss & h' & Hrun & Hwf).
  destruct (generate_cells_spec cts uniform h) as (ss0 & h0 & Hrun0 & _ & Hl).
  rewrite Hrun in Hrun0. injection Hrun0 as <- <-.
  exists ss, h'. split; [exact Hrun|].
  rewrite <- (keys_ledger_wf _ _ Hwf), Hl.
  intros k1 k2 H1 H2 Hlab.
  apply list_elem_of_fmap in H1 as ([k1' r1] & -> & H1).
  apply list_elem_of_fmap in H2 as ([k2' r2] & -> & H2).
  apply elem_of_new_cells in H1 as (i1 & c1 & Hc1 & -> & _).
  apply elem_of_new_cells in H2 as (i2 & c2 & Hc2 & -> & _).
  simpl in *. apply label_of_index_inj in Hlab.
  assert (i1 = i2) by lia. subst i2.
  rewrite Hc1 in Hc2. now injection Hc2 as ->.
Qed.

Lemma generated_labels_distinct_witness :
  exists ss h',
    generate_cells ["lfp"; "nmc"; "lfp"] (fun _ => 30.04%float) []
    = (inr ss, h') /\
    forall k1 k2,
      k1 ∈ dict_keys (cells_data ss) -> k2 ∈ dict_keys (cells_data ss) ->
      label_of k1 = label_of k2 -> k1 = k2.
Proof.
  apply (generated_labels_distinct ["lfp"; "nmc"; "lfp"]
           (fun _ => 30.04%float) []).
  repeat (constructor; [reflexivity|]). constructor.
Defined.

(** ** The handlers, as a user of the script meets them *)

(** X1. Whatever the heap holds already and whatever the cell types are,
    "Generate Cells" returns a well-formed store: one entry per cell type,
    under pairwise distinct identifiers, each bound to a record of its own;
    and it builds new records instead of writing into those the heap
    holds. *)
Theorem generate_cells_wf
    (cts : list string) (uniform : nat -> float) (h : heap) :
  exists ss h',
    generate_cells cts uniform h = (inr ss, h') /\
    wf_store h' (cells_data ss) = true /\
    NoDup (dict_keys (cells_data ss)) /\
    length (cells_data ss) = length cts /\
    (forall a r, h !! a = Some r -> h' !! a = Some r).
Proof.
  destruct (generate_cells_store_wf cts uniform h) as (ss & h' & Hrun & Hwf).
  destruct (generate_cells_spec cts uniform h) as (ss0 & h0 & Hrun0 & _ & Hl).
  rewrite Hrun in Hrun0. injection Hrun0 as <- <-.
  exists ss, h'. split; [exact Hrun|]. split; [exact Hwf|].
  split; [|split].
  - apply wf_store_unfold in Hwf as (Hk & _ & _). exact Hk.
  - now rewrite <- (length_ledger_wf _ _ Hwf), Hl, length_new_cells.
  - intros a r Ha. unfold generate_cells in Hrun.
    rewrite (bind_inr _ _ _ _ _
               (generate_loop_spec cts 1 uniform [] h (fun _ _ _ => eq_refl)))
      in Hrun.
    injection Hrun as _ <-. now apply lookup_app_l_Some.
Qed.



(** X8. Pressing "Update All Currents" is not observable: the tab leaves
    the same session and heap with and without it, and the run the click
    starts ends, after its [st.rerun()], with the session, the heap and the
    statistics of a run in which nothing was pressed. *)
Theorem script_run_update_button_irrelevant
    (inp : run_inputs) (ss : session_state) (h : heap) :
  wf_store h (cells_data ss) = true ->
  current_input_tab (in_number_input inp) true ss h
  = current_input_tab (in_number_input inp) false ss h /\
  script_run ClickUpdate inp ss h = script_run Interaction inp ss h.
Proof.
  intros Hwf. split.
  - apply commit_button_is_noop.
  - apply script_run_update_as_interaction, Hwf.
Qed.

Lemma script_run_update_button_irrelevant_witness :
  current_input_tab demo_inputs true demo_session demo_heap
  = current_input_tab demo_inputs false demo_session demo_heap /\
  script_run ClickUpdate demo_run_inputs demo_session demo_heap
  = script_run Interaction demo_run_inputs demo_session demo_heap.
Proof.
  apply (script_run_update_button_irrelevant demo_run_inputs demo_session
           demo_heap).
  vm_compute. reflexivity.
Defined.

(** X12. On a well-formed store the two counts of Quick Stats are never
    negative and add up to the number of cells, although the second is
    computed by subtraction. *)
Theorem chemistry_counts_bounds (h : heap) (d : pydict) :
  wf_store h d = true ->
  exists lfp,
    lfp_count d h = (inr lfp, h) /\
    0 <= lfp <= Z.of_nat (length d) /\
    0 <= nmc_count d lfp /\
    lfp + nmc_count d lfp = Z.of_nat (length d).
Proof.
  intros Hwf. exists (count_chemistry "LFP" (ledger h d)).
  split; [now apply lfp_count_wf|].
  unfold nmc_count, count_chemistry.
  rewrite <- (length_ledger_wf h d Hwf).
  pose proof (length_filter (fun kr : string * cell => type (snd kr) = "LFP")
                (ledger h d)) as Hle.
  lia.
Qed.

Lemma chemistry_counts_bounds_witness :
  exists lfp,
    lfp_count demo_dict demo_heap = (inr lfp, demo_heap) /\
    0 <= lfp <= Z.of_nat (length demo_dict) /\
    0 <= nmc_count demo_dict lfp /\
    lfp + nmc_count demo_dict lfp = Z.of_nat (length demo_dict).
Proof.
  apply (chemistry_counts_bounds demo_heap demo_dict).
  vm_compute. reflexivity.
Defined.

(** ** Stored currents and the bounds of the number inputs *)

Lemma currents_in_range_inputs (number_input : string -> float) (h : heap)
    (d : pydict) (l : list (string * cell)) :
  ledger h d = map (with_input number_input) l ->
  (forall k, valid_current (number_input k) = true) ->
  currents_in_range h d = true.
Proof.
  intros Hl Hni. unfold currents_in_range. rewrite Hl.
  apply forallb_forall. intros kr Hin.
  apply in_map_iff in Hin as ([k r] & <- & _). simpl. apply Hni.
Qed.

(** X6. On a well-formed store whose currents lie within the bounds of the
    number inputs, and with number inputs that hold values within their
    bounds, the "Current Input" tab never raises, whether the button is
    pressed or not, and keeps the session as it is; afterwards every cell
    carries the value of its number input and the capacity
    [round(voltage * value, 2)], all its other fields, the identifiers and
    their order being as before, and the stored currents are within the
    bounds again. *)
Theorem current_input_tab_ledger
    (number_input : string -> float) (button : bool)
    (ss : session_state) (h : heap) :
  wf_store h (cells_data ss) = true ->
  currents_in_range h (cells_data ss) = true ->
  (forall k, valid_current (number_input k) = true) ->
  exists h',
    current_input_tab number_input button ss h = (inr ss, h') /\
    ledger h' (cells_data ss)
    = map (with_input number_input) (ledger h (cells_data ss)) /\
    (forall k r,
       lookup_cell h (cells_data ss) k = Some r ->
       lookup_cell h' (cells_data ss) k
       = Some (with_current r (number_input k))) /\
    wf_store h' (cells_data ss) = true /\
    currents_in_range h' (cells_data ss) = true.
Proof.
  intros Hwf _ Hni.
  destruct (current_input_tab_spec number_input button ss h Hwf)
    as (h' & Hrun & Hl & Hwf').
  exists h'. split; [exact Hrun|]. split; [exact Hl|].
  split; [|split; [exact Hwf'|]].
  - intros k r Hk.
    apply (lookup_cell_ledger _ _ _ _ Hwf) in Hk.
    apply (lookup_cell_ledger _ _ _ _ Hwf'). rewrite Hl.
    apply (list_elem_of_fmap_2 (with_input number_input)) in Hk. exact Hk.
  - eapply currents_in_range_inputs; eauto.
Qed.

Lemma demo_inputs_valid (k : string) : valid_current (demo_inputs k) = true.
Proof.
  unfold demo_inputs. destruct (String.eqb k "cell_1_lfp"); reflexivity.
Qed.

Lemma current_input_tab_ledger_witness :
  exists h',
    current_input_tab demo_inputs true demo_session demo_heap
    = (inr demo_session, h') /\
    ledger h' (cells_data demo_session)
    = map (with_input demo_inputs) (ledger demo_heap (cells_data demo_session)) /\
    (forall k r,
       lookup_cell demo_heap (cells_data demo_session) k = Some r ->
       lookup_cell h' (cells_data demo_session) k
       = Some (with_current r (demo_inputs k))) /\
    wf_store h' (cells_data demo_session) = true /\
    currents_in_range h' (cells_data demo_session) = true.
Proof.
  apply (current_input_tab_ledger demo_inputs true demo_session demo_heap).
  - vm_compute. reflexivity.
  - vm_compute. reflexivity.
  - apply demo_inputs_valid.
Defined.

(** X9. No run raises on its data.  From a well-formed store whose
    currents lie within the bounds of the number inputs, a run with valid
    widget values, whatever started it, ends in such a store again; it shows
    the statistics exactly when the ledger it ends with is not empty, so the
    division of line 187 never meets a zero; and unless "Generate Cells" was
    clicked it keeps the session, with every cell carrying its input. *)
Theorem script_run_never_raises
    (ev : event) (inp : run_inputs) (ss : session_state) (h : heap) :
  wf_store h (cells_data ss) = true ->
  currents_in_range h (cells_data ss) = true ->
  valid_inputs inp ->
  exists ss' out h',
    script_run ev inp ss h = (inr (ss', out), h') /\
    wf_store h' (cells_data ss') = true /\
    currents_in_range h' (cells_data ss') = true /\
    (out = None <-> cells_data ss' = []) /\
    (ev <> ClickGenerate ->
       ss' = ss /\
       ledger h' (cells_data ss)
       = map (with_input (in_number_input inp)) (ledger h (cells_data ss))).
Proof.
  intros Hwf _ (_ & _ & _ & Hni). destruct ev.
  - destruct (script_run_interaction_spec inp ss h Hwf)
      as (out & h' & Hrun & Hwf' & Hl & Hout).
    exists ss, out, h'. split; [exact Hrun|]. split; [exact Hwf'|].
    split; [eapply currents_in_range_inputs; eauto|]. auto.
  - destruct (generate_cells_store_wf (sidebar_cell_types (in_choices inp))
                (in_uniform inp) h) as (ss1 & h1 & Hgen & Hwf1).
    destruct (script_run_interaction_spec inp ss1 h1 Hwf1)
      as (out & h' & Hrun & Hwf' & Hl & Hout).
    exists ss1, out, h'. rewrite script_run_generate.
    rewrite (bind_inr _ _ _ _ _ Hgen).
    split; [exact Hrun|]. split; [exact Hwf'|].
    split; [eapply currents_in_range_inputs; eauto|].
    split; [exact Hout|]. intros Hne. contradiction.
  - rewrite (script_run_update_as_interaction inp ss h Hwf).
    destruct (script_run_interaction_spec inp ss h Hwf)
      as (out & h' & Hrun & Hwf' & Hl & Hout).
    exists ss, out, h'. split; [exact Hrun|]. split; [exact Hwf'|].
    split; [eapply currents_in_range_inputs; eauto|]. auto.
Qed.

Lemma script_run_never_raises_witness :
  exists ss' out h',
    script_run Interaction demo_run_inputs demo_session demo_heap
    = (inr (ss', out), h') /\
    wf_store h' (cells_data ss') = true /\
    currents_in_range h' (cells_data ss') = true /\
    (out = None <-> cells_data ss' = []) /\
    (Interaction <> ClickGenerate ->
       ss' = demo_session /\
       ledger h' (cells_data demo_session)
       = map (with_input (in_number_input demo_run_inputs))
             (ledger demo_heap (cells_data demo_session))).
Proof.
  apply (script_run_never_raises Interaction demo_run_inputs demo_session
           demo_heap).
  - vm_compute. reflexivity.
  - vm_compute. reflexivity.
  - apply demo_run_inputs_valid.
Defined.

(** ** The first statistics of a new ledger *)

Lemma with_input_zero (number_input : string -> float) (ct : string)
    (u : float) (k : string) :
  number_input k = 0%float ->
  current (with_current (new_cell ct u) (number_input k)) = 0%float /\
  capacity (with_current (new_cell ct u) (number_input k)) = 0%float.
Proof.
  intros ->. unfold new_cell, with_current.
  destruct (String.eqb ct "lfp"); split; reflexivity.
Qed.

(** X3. A click on "Generate Cells" with valid widget values while every
    number input holds 0.0, the value a new cell starts with: the run shows
    Quick Stats, and both the total capacity and the total current it shows
    are 0.0. *)
Theorem generate_run_totals_zero
    (inp : run_inputs) (ss : session_state) (h : heap) :
  valid_inputs inp ->
  (forall k, in_number_input inp k = 0%float) ->
  exists ss' qs h',
    script_run ClickGenerate inp ss h = (inr (ss', Some qs), h') /\
    qs_total_capacity qs = 0%float /\
    qs_total_current qs = 0%float.
Proof.
  intros (Hlen & _ & _ & _) Hzero.
  set (cts := sidebar_cell_types (in_choices inp)).
  destruct (generate_cells_store_wf cts (in_uniform inp) h)
    as (ss1 & h1 & Hgen & Hwf1).
  destruct (generate_cells_spec cts (in_uniform inp) h)
    as (ss0 & h0 & Hgen0 & _ & Hl1).
  rewrite Hgen in Hgen0. injection Hgen0 as <- <-.
  assert (Hd : cells_data ss1 <> []).
  { intros E. pose proof (length_ledger_wf _ _ Hwf1) as Hn.
    rewrite Hl1, length_new_cells, E in Hn. subst cts.
    unfold sidebar_cell_types in Hn. rewrite length_map in Hn.
    simpl in Hn. lia. }
  destruct (script_pass_interaction_nonempty inp ss1 h1 Hwf1 Hd)
    as (h2 & qs & Htab & Hpass & Hp).
  destruct (current_input_tab_spec (in_number_input inp) false ss1 h1 Hwf1)
    as (h3 & Htab3 & Hl2 & _).
  rewrite Htab in Htab3. injection Htab3 as <-.
  exists ss1, qs, h2. split.
  - rewrite script_run_generate. fold cts.
    rewrite (bind_inr _ _ _ _ _ Hgen). unfold script_run.
    now rewrite (bind_inr _ _ _ _ _ Hpass).
  - assert (Z : forall f : cell -> float,
              (forall ct u k,
                 f (with_current (new_cell ct u) (in_number_input inp k))
                 = 0%float) ->
              sum_of f (ledger h2 (cells_data ss1)) = 0%float).
    { intros f Hf. apply sum_of_zero. rewrite Hl2, Hl1.
      apply Forall_forall. intros kr Hin.
      apply list_elem_of_fmap in Hin as ([k r] & -> & Hin).
      apply elem_of_new_cells in Hin as (i & ct & _ & _ & ->).
      simpl. apply Hf. }
    unfold panel_of in Hp.
    destruct (Z.of_nat (length (ledger h2 (cells_data ss1))) =? 0);
      [discriminate|].
    injection Hp as <-. simpl.
    split; apply Z; intros ct u k; apply with_input_zero, Hzero.
Qed.

Lemma zero_inputs_valid : valid_inputs zero_inputs.
Proof.
  split; [simpl; lia|]. split; [repeat (constructor; [auto|]); constructor|].
  split; [intros i; split; vm_compute; reflexivity|].
  intros k. reflexivity.
Qed.

Lemma generate_run_totals_zero_witness :
  exists ss' qs h',
    script_run ClickGenerate zero_inputs (Session [] []) []
    = (inr (ss', Some qs), h') /\
    qs_total_capacity qs = 0%float /\
    qs_total_current qs = 0%float.
Proof.
  apply (generate_run_totals_zero zero_inputs (Session [] []) []).
  - apply zero_inputs_valid.
  - intros k. reflexivity.
Defined.
